(** * convert-pth-to-ggml: a shallow embedding of the checkpoint converter

    The development follows [convert-pth-to-ggml.py]: the type registry
    ([WTYPES], [GGML_BLCK_SIZE], [GGML_TYPE_SIZE]), the size arithmetic
    ([ggml_nelements], [ggml_nbytes]), the shard-count lookup
    ([get_n_parts]), the header and vocabulary writers ([write_header],
    [write_tokens]), the tensor writer ([process_and_write_variables]) and
    the driver ([main]).

    Python integers are [Z]; [//] and [%] are [Z.div] and [Z.modulo] (both
    floor, as in Python) with the zero divisor raised explicitly.  Python
    [str] is a list of code points, [bytes] a list of [byte].  Dictionaries
    are stdpp [gmap]s, a missing key raises [KeyError].  The output file is a
    byte list with an explicit cursor; every exception the script can raise
    is a constructor of [exn]. *)

From Stdlib Require Import ZArith List Ascii String Bool Lia.
From Stdlib.Strings Require Import Byte.
From stdpp Require Import base gmap list strings.
From Equations Require Import Equations.

Local Open Scope Z_scope.

(** ** Exceptions and results *)

Inductive exn : Type :=
| SystemExit (code : Z)
| AssertionError
| KeyError
| IndexError
| NameError
| StructError
| ZeroDivisionError
| ValueError
| OSError
| TypeError
| UnicodeEncodeError
| FileNotFoundError.

Inductive result (A : Type) : Type :=
| Ok (a : A)
| Raise (e : exn).

Arguments Ok {A} a.
Arguments Raise {A} e.

(** [result] is a monad: an exception ends the computation.  The stdpp
    notation [x ← m; k] sequences two steps. *)
#[global] Instance result_ret : MRet result := fun A a => Ok a.

#[global] Instance result_bind : MBind result := fun A B k m =>
  match m with
  | Ok a => k a
  | Raise e => Raise e
  end.

#[global] Instance result_fmap : FMap result := fun A B g m =>
  match m with
  | Ok a => Ok (g a)
  | Raise e => Raise e
  end.


(** [d[k]] on a dictionary. *)
Definition getitem {K V} `{Countable K} (d : gmap K V) (k : K) : result V :=
  match d !! k with
  | Some v => Ok v
  | None => Raise KeyError
  end.

(** [a // b] on Python integers. *)
Definition floordiv (a b : Z) : result Z :=
  if b =? 0 then Raise ZeroDivisionError else Ok (a / b).

(** [range(n)]. *)
Definition range (n : Z) : list Z := map Z.of_nat (seq 0 (Z.to_nat n)).

(** ** Bytes and [struct.pack] *)

Abbreviation bytes := (list byte) (only parsing).

Definition byte_of_Z (z : Z) : byte :=
  match Byte.of_N (Z.to_N (z mod 256)) with
  | Some b => b
  | None => x00
  end.

Definition Z_of_byte (b : byte) : Z := Z.of_N (Byte.to_N b).

(** The [n] low-order bytes of [v], least significant first. *)
Fixpoint le_bytes (n : nat) (v : Z) : bytes :=
  match n with
  | O => []
  | S n' => byte_of_Z v :: le_bytes n' (Z.shiftr v 8)
  end.

Fixpoint le_value (bs : bytes) : Z :=
  match bs with
  | [] => 0
  | b :: bs' => Z_of_byte b + 256 * le_value bs'
  end.

Inductive byteorder : Type := LittleEndian | BigEndian.

Definition order_bytes (bo : byteorder) (bs : bytes) : bytes :=
  match bo with
  | LittleEndian => bs
  | BigEndian => rev bs
  end.

(** [struct.pack("i", v)]: four bytes, two's complement, native order;
    a value outside the C [int] range raises [struct.error]. *)
Definition pack_i (bo : byteorder) (v : Z) : result bytes :=
  if (- 2 ^ 31 <=? v) && (v <? 2 ^ 31)
  then Ok (order_bytes bo (le_bytes 4 (v mod 2 ^ 32)))
  else Raise StructError.

(** The inverse reading of a 4-byte native field. *)
Definition unpack_i (bo : byteorder) (bs : bytes) : Z :=
  let u := le_value (order_bytes bo bs) in
  if u <? 2 ^ 31 then u else u - 2 ^ 32.

(** [struct.pack("B", v)]. *)
Definition pack_B (v : Z) : result bytes :=
  if (0 <=? v) && (v <? 256) then Ok [byte_of_Z v] else Raise StructError.

(** [struct.pack("i" * len(values), *values)]: native alignment adds no
    padding between fields of one size. *)
Fixpoint pack_ints (bo : byteorder) (values : list Z) : result bytes :=
  match values with
  | [] => Ok []
  | v :: vs =>
      b ← pack_i bo v;
      bs ← pack_ints bo vs;
      Ok (b ++ bs)
  end.

(** ** Type registry *)

Definition QK : Z := 32.

Definition GGML_TYPE_Q4_0 : Z := 0.
Definition GGML_TYPE_Q4_1 : Z := 1.
Definition GGML_TYPE_I8 : Z := 2.
Definition GGML_TYPE_I16 : Z := 3.
Definition GGML_TYPE_I32 : Z := 4.
Definition GGML_TYPE_F16 : Z := 5.
Definition GGML_TYPE_F32 : Z := 6.

Definition WTYPES : gmap Z Z :=
  <[0 := GGML_TYPE_F32]> (<[1 := GGML_TYPE_F16]>
  (<[2 := GGML_TYPE_Q4_0]> (<[3 := GGML_TYPE_Q4_1]> ∅))).

Definition GGML_BLCK_SIZE : gmap Z Z :=
  <[GGML_TYPE_Q4_0 := QK]> (<[GGML_TYPE_Q4_1 := QK]>
  (<[GGML_TYPE_I8 := 1]> (<[GGML_TYPE_I16 := 1]>
  (<[GGML_TYPE_I32 := 1]> (<[GGML_TYPE_F16 := 1]>
  (<[GGML_TYPE_F32 := 1]> ∅)))))).

Definition GGML_TYPE_SIZE : gmap Z Z :=
  <[GGML_TYPE_Q4_0 := 4 + QK / 2]> (<[GGML_TYPE_Q4_1 := 4 * 2 + QK / 2]>
  (<[GGML_TYPE_I8 := 1]> (<[GGML_TYPE_I16 := 2]>
  (<[GGML_TYPE_I32 := 4]> (<[GGML_TYPE_F16 := 2]>
  (<[GGML_TYPE_F32 := 4]> ∅)))))).

(** ** Size arithmetic *)

Definition ggml_nelements (shape : list Z) : Z :=
  fold_left (fun r i => r * i) shape 1.

Definition ggml_nbytes (shape : list Z) (ftype : Z) : result Z :=
  let x := ggml_nelements shape in
  t ← getitem WTYPES ftype;
  ts ← getitem GGML_TYPE_SIZE t;
  let x := x * ts in
  bs ← getitem GGML_BLCK_SIZE t;
  floordiv x bs.

(** ** Shard-count lookup *)

Definition get_n_parts (dim : Z) : result Z :=
  let mappings : gmap Z Z :=
    <[4096 := 1]> (<[5120 := 2]> (<[6656 := 4]> (<[8192 := 8]> ∅))) in
  match mappings !! dim with
  | None => Raise (SystemExit 1)
  | Some n_parts => Ok n_parts
  end.

(** ** Python strings *)

(** A [str] is its sequence of code points; [len] counts code points. *)
Abbreviation pystr := (list Z) (only parsing).

Definition pystr_of (s : string) : pystr :=
  map (fun a => Z.of_N (N_of_ascii a)) (list_ascii_of_string s).

Definition len {A} (l : list A) : Z := Z.of_nat (length l).

Fixpoint startswith (p s : pystr) : bool :=
  match p, s with
  | [], _ => true
  | _ :: _, [] => false
  | a :: p', b :: s' => (a =? b) && startswith p' s'
  end.

(** [p in s]: [p] occurs in [s] as a contiguous run. *)
Fixpoint contains (p s : pystr) : bool :=
  startswith p s ||
  match s with
  | [] => false
  | _ :: s' => contains p s'
  end.

Definition endswith (p s : pystr) : bool := startswith (rev p) (rev s).

(** [s.replace(old, new)] for one-character [old] and [new]. *)
Definition replace_char (old new : Z) (s : pystr) : pystr :=
  map (fun c => if c =? old then new else c) s.

(** [s[lo:hi]] with Python's treatment of negative and large bounds. *)
Definition slice_bound (i n : Z) : Z :=
  if i <? 0 then Z.max (i + n) 0 else Z.min i n.

Definition slice {A} (lo hi : Z) (s : list A) : list A :=
  let a := slice_bound lo (len s) in
  let b := slice_bound hi (len s) in
  take (Z.to_nat (b - a)) (drop (Z.to_nat a) s).

(** [s.encode()]: UTF-8; a surrogate raises. *)
Definition utf8_char (c : Z) : result bytes :=
  if c <? 0 then Raise UnicodeEncodeError
  else if c <? 0x80 then Ok [byte_of_Z c]
  else if c <? 0x800 then
    Ok [byte_of_Z (0xC0 + c / 64); byte_of_Z (0x80 + c mod 64)]
  else if c <? 0x10000 then
    if (0xD800 <=? c) && (c <=? 0xDFFF) then Raise UnicodeEncodeError
    else Ok [byte_of_Z (0xE0 + c / 4096); byte_of_Z (0x80 + (c / 64) mod 64);
             byte_of_Z (0x80 + c mod 64)]
  else if c <? 0x110000 then
    Ok [byte_of_Z (0xF0 + c / 262144); byte_of_Z (0x80 + (c / 4096) mod 64);
        byte_of_Z (0x80 + (c / 64) mod 64); byte_of_Z (0x80 + c mod 64)]
  else Raise UnicodeEncodeError.

Fixpoint encode (s : pystr) : result bytes :=
  match s with
  | [] => Ok []
  | c :: s' =>
      b ← utf8_char c;
      bs ← encode s';
      Ok (b ++ bs)
  end.

(** *** [int(s, 16)]

    The reading CPython gives an ASCII string: optional blanks, an optional
    sign, an optional [0x] prefix, hexadecimal digits with single
    underscores between them, optional blanks.  A code point above 127 is
    rejected here; CPython would first map Unicode blanks and decimal digits
    to ASCII, which no byte piece of a SentencePiece model contains. *)

Definition is_space (c : Z) : bool := (c =? 32) || ((9 <=? c) && (c <=? 13)).

Definition hex_digit (c : Z) : option Z :=
  if (48 <=? c) && (c <=? 57) then Some (c - 48)
  else if (97 <=? c) && (c <=? 102) then Some (c - 87)
  else if (65 <=? c) && (c <=? 70) then Some (c - 55)
  else None.

Fixpoint lstrip (s : pystr) : pystr :=
  match s with
  | c :: s' => if is_space c then lstrip s' else s
  | [] => []
  end.

Fixpoint scan_hex (s : pystr) (prev_us : bool) (digits : nat) (acc : Z)
  : option (Z * nat * pystr) :=
  match s with
  | c :: s' =>
      if c =? 95 then
        if prev_us then None else scan_hex s' true digits acc
      else
        match hex_digit c with
        | Some d => scan_hex s' false (S digits) (16 * acc + d)
        | None => if prev_us then None else Some (acc, digits, s)
        end
  | [] => if prev_us then None else Some (acc, digits, [])
  end.

Definition int16 (s : pystr) : result Z :=
  let s := lstrip s in
  let '(sign, s) :=
    match s with
    | c :: s' =>
        if c =? 43 then (1, s') else if c =? 45 then (-1, s') else (1, s)
    | [] => (1, s)
    end in
  let s :=
    match s with
    | c :: x :: s' =>
        if (c =? 48) && ((x =? 120) || (x =? 88))
        then match s' with
             | u :: s'' => if u =? 95 then s'' else s'
             | [] => s'
             end
        else s
    | _ => s
    end in
  if match s with c :: _ => c =? 95 | [] => false end then Raise ValueError
  else
    match scan_hex s false 0 0 with
    | Some (v, S _, rest) =>
        match lstrip rest with
        | [] => Ok (sign * v)
        | _ :: _ => Raise ValueError
        end
    | _ => Raise ValueError
    end.

(** ** The output file *)

(** A file opened with ["wb"]: its bytes and the cursor.  Writing at the
    cursor overwrites and extends; a gap left by seeking past the end is
    filled with zero bytes by the first write there. *)
Record file : Type := mkfile { contents : bytes; pos : nat }.

Definition empty_file : file := mkfile [] 0.

Definition write_at (c : bytes) (p : nat) (bs : bytes) : bytes :=
  match bs with
  | [] => c
  | _ :: _ =>
      take p c ++ replicate (p - length c) x00 ++ bs ++ drop (p + length bs) c
  end.

Definition write (bs : bytes) (f : file) : file :=
  mkfile (write_at (contents f) (pos f) bs) (pos f + length bs).

Definition tell (f : file) : Z := Z.of_nat (pos f).

(** Code that writes to [fout]: the file is threaded through, and survives
    an exception with whatever was written before it. *)
Definition io (A : Type) : Type := file -> file * result A.

#[global] Instance io_ret : MRet io := fun A a f => (f, Ok a).

#[global] Instance io_bind : MBind io := fun A B k m f =>
  match m f with
  | (f', Ok a) => k a f'
  | (f', Raise e) => (f', Raise e)
  end.

Definition lift {A} (r : result A) : io A := fun f => (f, r).

Definition fwrite (bs : bytes) : io unit := fun f => (write bs f, Ok tt).

Definition ftell : io Z := fun f => (f, Ok (tell f)).

(** [fout.seek(p)]: a negative offset is refused.  Offsets too large for
    the platform's file offset type, which the real call also refuses, are
    not modelled. *)
Definition fseek (p : Z) : io unit := fun f =>
  if p <? 0 then (f, Raise OSError)
  else (mkfile (contents f) (Z.to_nat p), Ok tt).

(** [for x in xs: body]. *)
Fixpoint for_each {A} (xs : list A) (body : A -> io unit) : io unit :=
  match xs with
  | [] => mret tt
  | x :: xs' => _ ← body x; for_each xs' body
  end.

(** ** Tensors *)

Inductive dtype : Type := float16 | float32 | float64 | bfloat16.

(** A checkpoint tensor and a numpy array: element type, shape, and the
    elements in row-major order, each as the bytes it occupies in memory. *)
Record tensor : Type := mktensor {
  t_dtype : dtype;
  t_shape : list Z;
  t_items : list bytes
}.

Record ndarray : Type := mkarray {
  a_dtype : dtype;
  shape : list Z;
  items : list bytes
}.

(** [datao.numpy()]: numpy has no bfloat16.  Tensors on the CPU that take
    no part in a gradient, as [torch.load] with [map_location] set to the CPU gives
    for a checkpoint; the other refusals of the real call are not
    modelled. *)
Definition numpy (t : tensor) : result ndarray :=
  match t_dtype t with
  | bfloat16 => Raise TypeError
  | d => Ok (mkarray d (t_shape t) (t_items t))
  end.

(** [a.squeeze()]: axes of length one are dropped. *)
Definition squeeze (a : ndarray) : ndarray :=
  mkarray (a_dtype a) (List.filter (fun d => negb (d =? 1)) (shape a)) (items a).

(** [l[i]] for a non-negative [i]. *)
Definition index {A} (l : list A) (i : Z) : result A :=
  match l !! Z.to_nat i with
  | Some x => Ok x
  | None => Raise IndexError
  end.

(** [a[row]] of a rank-2 array. *)
Definition row_of (a : ndarray) (row : Z) : ndarray :=
  match shape a with
  | [_; cols] =>
      mkarray (a_dtype a) [cols]
        (take (Z.to_nat cols) (drop (Z.to_nat (row * cols)) (items a)))
  | _ => a
  end.

Definition tobytes (a : ndarray) : bytes := concat (items a).

(** [a.tofile(fout)]. *)
Definition tofile (a : ndarray) : io unit := fwrite (tobytes a).

(** A loaded shard: [model.items()] in order. *)
Abbreviation model := (list (list Z * tensor)) (only parsing).

(** [i in (1, 2)]. *)
Definition in_1_2 (i : Z) : bool := (i =? 1) || (i =? 2).

(** The name patterns of lines 158-170. *)
Definition plan_split_dim (n_dims : Z) (name : pystr) : option Z :=
  if 1 <? n_dims then
    let split_dim := 1 in
    Some
      (if contains (pystr_of "tok_embeddings") name then 1
       else if contains (pystr_of "layers") name then
         if contains (pystr_of "attention.wo.weight") name then 1
         else if contains (pystr_of "feed_forward.w2.weight") name then 1
         else 0
       else if contains (pystr_of "output") name then 0
       else split_dim)
  else None.

(** Lines 178-181: zero bytes until the offset is a multiple of [QK]. *)
Equations? align_loop (f : file) (tensor_data_offset : Z) : file * Z
  by wf (Z.to_nat ((- tensor_data_offset) mod QK)) lt :=
  align_loop f tensor_data_offset with Z.eq_dec (tensor_data_offset mod QK) 0 := {
    | left _ => (f, tensor_data_offset)
    | right _ => align_loop (write [x00] f) (tensor_data_offset + 1) }.
Proof.
  unfold QK in *.
  assert (H1 : 0 <= (- (tensor_data_offset + 1)) mod 32 < 32)
    by (apply Z.mod_pos_bound; lia).
  assert (H2 : 0 <= (- tensor_data_offset) mod 32 < 32)
    by (apply Z.mod_pos_bound; lia).
  assert ((- tensor_data_offset) mod 32 = (- (tensor_data_offset + 1)) mod 32 + 1);
    [| lia].
  pose proof (Z.div_mod tensor_data_offset 32 ltac:(lia)) as E.
  pose proof (Z.mod_pos_bound tensor_data_offset 32 ltac:(lia)) as B.
  set (q := tensor_data_offset / 32) in *.
  set (r := tensor_data_offset mod 32) in *.
  replace (- tensor_data_offset) with ((32 - r) + (- q - 1) * 32) by lia.
  replace (- (tensor_data_offset + 1)) with ((32 - r - 1) + (- q - 1) * 32) by lia.
  rewrite !Z.mod_add by lia.
  rewrite !Z.mod_small by lia. lia.
Qed.

Definition align_body : io Z := fun f =>
  let '(f', tensor_data_offset) := align_loop f (tell f) in
  (f', Ok tensor_data_offset).

(** ** The tokenizer (SentencePiece)

    What the script asks of a [SentencePieceProcessor]; [pyfloat] stands
    for Python's floats. *)
Record tokenizer (pyfloat : Type) : Type := mktokenizer {
  vocab_size : Z;
  is_unknown : Z -> bool;
  is_control : Z -> bool;
  is_byte : Z -> bool;
  id_to_piece : Z -> pystr;
  get_score : Z -> pyfloat
}.

Arguments mktokenizer {pyfloat}.
Arguments vocab_size {pyfloat}.
Arguments is_unknown {pyfloat}.
Arguments is_control {pyfloat}.
Arguments is_byte {pyfloat}.
Arguments id_to_piece {pyfloat}.
Arguments get_score {pyfloat}.

(** ** Reference definitions for the split-reconstruction property *)

(** The unsharded buffer of a row-partitioned tensor: the shards' buffers
    one after the other. *)
Definition rows_joined (shards : list ndarray) : bytes :=
  concat (map tobytes shards).

(** The unsharded buffer of a column-partitioned tensor with [rows] rows:
    row by row, the column slices of the shards side by side. *)
Definition columns_joined (rows : Z) (shards : list ndarray) : bytes :=
  concat (map (fun r => concat (map (fun s => tobytes (row_of s r)) shards))
              (range rows)).

(** ** Reading the vocabulary section back

    A reader of the layout [write_tokens] produces: [n] records, each a
    4-byte length, that many bytes of text and four bytes of score.  It
    returns the texts with their score fields and the bytes that follow. *)
Fixpoint read_vocab (bo : byteorder) (n : nat) (bs : bytes)
  : option (list (bytes * bytes) * bytes) :=
  match n with
  | O => Some ([], bs)
  | S n' =>
      let k := unpack_i bo (take 4 bs) in
      let rest := drop 4 bs in
      if (length bs <? 4)%nat || (k <? 0) || (length rest <? Z.to_nat k + 4)%nat
      then None
      else
        match read_vocab bo n' (drop (Z.to_nat k + 4) rest) with
        | Some (entries, tl) =>
            Some ((take (Z.to_nat k) rest, take 4 (drop (Z.to_nat k) rest)) :: entries, tl)
        | None => None
        end
  end.

(** The piece SentencePiece gives the byte [v]: [<0xHH>] with two upper-case
    hexadecimal digits. *)
Definition hex_char (d : Z) : Z := if d <? 10 then 48 + d else 55 + d.

Definition byte_piece (v : Z) : pystr :=
  pystr_of "<0x" ++ [hex_char (v / 16); hex_char (v mod 16)] ++ pystr_of ">".

(** ** A region of the file that is left alone

    The first bytes of the file are [region] and the cursor is not inside
    them. *)
Definition region_kept (region : bytes) (f : file) : Prop :=
  (length region <= pos f)%nat /\ take (length region) (contents f) = region.

(** ** Sample inputs *)

(** The hyperparameters of a two-shard model, as [params.json] has them. *)
Definition params_13B : gmap string Z :=
  <["dim" := 5120]> (<["multiple_of" := 256]> (<["n_heads" := 40]>
  (<["n_layers" := 40]> (<["vocab_size" := -1]> ∅)))).

(** The hyperparameters of the end-to-end scenario. *)
Definition params_scenario : gmap string Z :=
  <["dim" := 4096]> (<["multiple_of" := 256]> (<["n_heads" := 32]>
  (<["n_layers" := 1]> (<["vocab_size" := 3]> ∅)))).

Definition empty_tokenizer : tokenizer unit :=
  mktokenizer 0 (fun _ => false) (fun _ => false) (fun _ => false)
    (fun _ => []) (fun _ => tt).

(** Three entries: unknown, control, and the byte piece [<0x41>]. *)
Definition small_tokenizer : tokenizer unit :=
  mktokenizer 3 (fun i => i =? 0) (fun i => i =? 1) (fun i => i =? 2)
    (fun i => if i =? 2 then pystr_of "<0x41>" else pystr_of "ab")
    (fun _ => tt).


Definition pack_unit (_ : unit) : result bytes := Ok [x00; x00; x00; x00].

(** A float32 element, told apart by its first byte. *)
Definition f32_item (n : Z) : bytes := [byte_of_Z n; x00; x00; x00].

Definition quad (a b c d : Z) : tensor :=
  mktensor float32 [2; 2] [f32_item a; f32_item b; f32_item c; f32_item d].

(** Two shards holding the halves of a 2 x 4 embedding table
    [[1 2 5 6] [3 4 7 8]], partitioned by columns. *)
Definition column_shards (part_id : Z) : result model :=
  if part_id =? 0 then Ok [(pystr_of "tok_embeddings.weight", quad 1 2 3 4)]
  else if part_id =? 1 then Ok [(pystr_of "tok_embeddings.weight", quad 5 6 7 8)]
  else Raise FileNotFoundError.

(** Two shards holding the halves of a 4 x 2 projection
    [[1 2] [3 4] [5 6] [7 8]], partitioned by rows. *)
Definition projection_shards (part_id : Z) : result model :=
  if part_id =? 0 then Ok [(pystr_of "layers.0.attention.wq.weight", quad 1 2 3 4)]
  else if part_id =? 1 then Ok [(pystr_of "layers.0.attention.wq.weight", quad 5 6 7 8)]
  else Raise FileNotFoundError.

(** The same two shards, each followed by a norm vector. *)
Definition norm : tensor := mktensor float32 [2] [f32_item 9; f32_item 10].

Definition row_shards (part_id : Z) : result model :=
  if part_id =? 0 then
    Ok [(pystr_of "layers.0.attention.wq.weight", quad 1 2 3 4);
        (pystr_of "norm.weight", norm)]
  else if part_id =? 1 then
    Ok [(pystr_of "layers.0.attention.wq.weight", quad 5 6 7 8);
        (pystr_of "norm.weight", norm)]
  else Raise FileNotFoundError.

(** A 1 x 1 tensor, of rank 0 once squeezed, and a bfloat16 vector. *)
Definition scalar : tensor := mktensor float32 [1; 1] [f32_item 1].

Definition half_vector : tensor := mktensor bfloat16 [2] [[x00; x3f]; [x00; x40]].

(** An ordinary entry, the piece of the word [Hi] with its word-boundary
    marker, then a byte entry whose piece is too short. *)
Definition word_tokenizer : tokenizer unit :=
  mktokenizer 2 (fun _ => false) (fun _ => false) (fun i => i =? 1)
    (fun i => if i =? 0 then 0x2581 :: pystr_of "Hi" else pystr_of "<41>")
    (fun _ => tt).

(** No shard file can be loaded. *)
Definition no_shards (part_id : Z) : result model := Raise FileNotFoundError.

Section Converter.

(** The host: the byte order of [struct]'s native mode, Python floats with
    [struct.pack("f", x)], and numpy's conversion of one element of a given
    type to float32. *)
Variable native : byteorder.
Variable pyfloat : Type.
Variable pack_f : pyfloat -> result bytes.
Variable to_float32 : dtype -> bytes -> bytes.

(** [params] is the dictionary read from [params.json], restricted to its
    integer entries (the script reads no other), [tok] the loaded
    tokenizer. *)
Definition load_hparams_and_tokenizer
  (params : gmap string Z) (tok : tokenizer pyfloat) : gmap string Z * tokenizer pyfloat :=
  let hparams := params in
  let hparams := <["vocab_size" := vocab_size tok]> hparams in
  (hparams, tok).

(** ** Header *)

Definition write_header (hparams : gmap string Z) (ftype : Z) : io unit :=
  let keys := ["vocab_size"; "dim"; "multiple_of"; "n_heads"; "n_layers"] in
  vals ← lift (mapM (getitem hparams) keys);
  dim ← lift (getitem hparams "dim");
  n_heads ← lift (getitem hparams "n_heads");
  rot ← lift (floordiv dim n_heads);
  let values := [0x67676a74; 1] ++ vals ++ [rot; ftype] in
  packed ← lift (pack_ints native values);
  fwrite packed.

(** ** Vocabulary *)

(** The text of entry [i]: the branches of the loop body of [write_tokens]. *)
Definition token_text (tok : tokenizer pyfloat) (i : Z) : result bytes :=
  if is_unknown tok i then
    encode (pystr_of " " ++ [0x2047] ++ pystr_of " ")
  else if is_control tok i then
    Ok []
  else if is_byte tok i then
    let piece := id_to_piece tok i in
    if negb (len piece =? 6) then Raise (SystemExit 1)
    else
      byte_value ← int16 (slice 3 (-1) piece);
      pack_B byte_value
  else
    encode (replace_char 0x2581 32 (id_to_piece tok i)).

Definition write_token (tok : tokenizer pyfloat) (i : Z) : io unit :=
  text ← lift (token_text tok i);
  n ← lift (pack_i native (len text));
  fwrite n;;
  fwrite text;;
  score ← lift (pack_f (get_score tok i));
  fwrite score.

Definition write_tokens (tok : tokenizer pyfloat) : io unit :=
  for_each (range (vocab_size tok)) (write_token tok).

(** ** Tensor records *)

(** [data.astype(np.float32)]. *)
Definition astype_float32 (a : ndarray) : ndarray :=
  mkarray float32 (shape a)
    (map (fun x => match a_dtype a with
                   | float32 => x
                   | d => to_float32 d x
                   end) (items a)).

(** Lines 150-154: the encoding of this tensor. *)
Definition plan_encoding (ftype n_dims : Z) (data : ndarray) : ndarray * Z :=
  let ftype_cur := 1 in
  if (ftype =? 0) || (n_dims =? 1)
  then (astype_float32 data, 0)
  else (data, ftype_cur).

(** Lines 172-176. *)
Definition write_record_header
  (n_dims : Z) (sname : bytes) (ftype_cur : Z) (partshape : list Z) : io unit :=
  h ← lift (pack_ints native [n_dims; len sname; ftype_cur]);
  fwrite h;;
  for_each (rev partshape) (fun dim => d ← lift (pack_i native dim); fwrite d);;
  fwrite sname.

(** Lines 183-202: where this shard's data goes. *)
Definition place_data
  (data : ndarray) (partshape : list Z) (n_dims part_id n_parts : Z)
  (split_dim : option Z) (blck_size type_size tensor_data_offset : Z) : io unit :=
  if (n_dims =? 1) || (n_parts =? 1) then
    if part_id =? 0 then tofile data else mret tt
  else
    split_dim ← lift (match split_dim with
                      | Some d => Ok d
                      | None => Raise NameError
                      end);
    if split_dim =? 0 then
      rows_per_chunk ← lift (index partshape 0);
      let current_row := part_id * rows_per_chunk in
      cols ← lift (index partshape 1);
      blocks ← lift (floordiv cols blck_size);
      let bytes_per_row := blocks * type_size in
      let offset := current_row * bytes_per_row in
      fseek (tensor_data_offset + offset);;
      tofile data
    else if split_dim =? 1 then
      cols_per_chunk ← lift (index partshape 1);
      let current_col := part_id * cols_per_chunk in
      cols ← lift (index partshape 1);
      blocks ← lift (floordiv cols blck_size);
      let bytes_per_row := blocks * type_size in
      col_blocks ← lift (floordiv current_col blck_size);
      let offset_current_col := col_blocks * type_size in
      rows ← lift (index partshape 0);
      for_each (range rows) (fun row =>
        let offset_row := row * bytes_per_row in
        let offset := offset_row + offset_current_col in
        fseek (tensor_data_offset + offset);;
        tofile (row_of data row))
    else mret tt.

(** One iteration of the loop of [process_and_write_variables]. *)
Definition write_variable
  (ftype part_id n_parts : Z) (name : pystr) (datao : tensor) : io unit :=
  if endswith (pystr_of "freqs") name then mret tt
  else
    data ← lift (squeeze <$> numpy datao);
    let partshape := shape data in
    let n_dims := len (shape data) in
    if negb (in_1_2 n_dims) then lift (Raise AssertionError)
    else
      let '(data, ftype_cur) := plan_encoding ftype n_dims data in
      wtype ← lift (getitem WTYPES ftype_cur);
      blck_size ← lift (getitem GGML_BLCK_SIZE wtype);
      type_size ← lift (getitem GGML_TYPE_SIZE wtype);
      let split_dim := plan_split_dim n_dims name in
      sname ← lift (encode name);
      write_record_header n_dims sname ftype_cur partshape;;
      tensor_data_offset ← align_body;
      place_data data partshape n_dims part_id n_parts split_dim
        blck_size type_size tensor_data_offset;;
      nbytes ← lift (ggml_nbytes partshape ftype_cur);
      fseek (tensor_data_offset + nbytes).

Definition process_and_write_variables
  (m : model) (ftype part_id n_parts : Z) : io unit :=
  for_each m (fun '(name, datao) => write_variable ftype part_id n_parts name datao).

(** ** Driver *)

(** The arguments [parse_args] lets through, the loaded [params.json], the
    tokenizer and the shard files; the result is the output file left on
    disk ([None] when it was never opened) and how the run ended. *)
Definition main
  (ftype : Z) (vocab_only : bool) (params : gmap string Z) (tok : tokenizer pyfloat)
  (torch_load : Z -> result model) : option bytes * result unit :=
  if negb ((ftype =? 0) || (ftype =? 1) || (ftype =? 2))
  then (None, Raise (SystemExit 2))
  else
    let '(hparams, tokenizer) := load_hparams_and_tokenizer params tok in
    if vocab_only then
      let '(fout, r) :=
        (write_header hparams ftype;; write_tokens tokenizer) empty_file in
      (Some (contents fout), r)
    else
      match (dim ← getitem hparams "dim"; get_n_parts dim) with
      | Raise e => (None, Raise e)
      | Ok n_parts =>
          let '(fout, r) :=
            (write_header hparams ftype;;
             write_tokens tokenizer;;
             offset_of_tensors ← ftell;
             for_each (range n_parts) (fun part_id =>
               fseek offset_of_tensors;;
               m ← lift (torch_load part_id);
               process_and_write_variables m ftype part_id n_parts)) empty_file in
          (Some (contents fout), r)
      end.

(** ** Reference definitions for the properties *)

Definition int32 (v : Z) : Prop := - 2 ^ 31 <= v < 2 ^ 31.

(** The header fields in the order the format description lists them:
    magic, version, embedding_dim, multiple_of, head_count, layer_count,
    vocab_size, rot, encoding selector. *)
Definition header_values_as_described
  (hparams : gmap string Z) (ftype : Z) : result (list Z) :=
  dim ← getitem hparams "dim";
  multiple_of ← getitem hparams "multiple_of";
  n_heads ← getitem hparams "n_heads";
  n_layers ← getitem hparams "n_layers";
  n_vocab ← getitem hparams "vocab_size";
  rot ← floordiv dim n_heads;
  Ok [0x67676a74; 1; dim; multiple_of; n_heads; n_layers; n_vocab; rot; ftype].

(** One vocabulary record on disk: the 4-byte length of the text, the
    text, the 4-byte score. *)
Definition vocab_record (tok : tokenizer pyfloat) (record : bytes) (i : Z) : Prop :=
  exists text n score,
    token_text tok i = Ok text /\
    pack_i native (len text) = Ok n /\
    pack_f (get_score tok i) = Ok score /\
    record = n ++ text ++ score.

Example nbytes_f16 : ggml_nbytes [4096; 4096] 1 = Ok (4096 * 4096 * 2).
Proof. reflexivity. Qed.

Example nbytes_q4 : ggml_nbytes [64; 32] 2 = Ok 1280.
Proof. vm_compute. reflexivity. Qed.

Example n_parts_13B : get_n_parts 5120 = Ok 2.
Proof. vm_compute. reflexivity. Qed.

Example pack_i_le : pack_i LittleEndian 0x67676a74 = Ok [x74; x6a; x67; x67].
Proof. vm_compute. reflexivity. Qed.

Example placeholder_utf8 :
  encode (pystr_of " " ++ [0x2047] ++ pystr_of " ") = Ok [x20; xe2; x81; x87; x20].
Proof. vm_compute. reflexivity. Qed.

Example int16_41 : int16 (pystr_of "41") = Ok 65.
Proof. vm_compute. reflexivity. Qed.

Example slice_byte_piece :
  slice 3 (-1) (pystr_of "<0x41>") = pystr_of "41".
Proof. vm_compute. reflexivity. Qed.

Example write_past_end :
  contents (write [x01] (mkfile [x02] 3)) = [x02; x00; x00; x01].
Proof. vm_compute. reflexivity. Qed.

(** ** Bytes, packing and the file: basic facts *)

Lemma Z_of_byte_of_Z (z : Z) : Z_of_byte (byte_of_Z z) = z mod 256.
Proof.
  unfold Z_of_byte, byte_of_Z.
  pose proof (Z.mod_pos_bound z 256 ltac:(lia)) as B.
  destruct (Byte.of_N (Z.to_N (z mod 256))) as [b|] eqn:E.
  - apply Byte.to_of_N in E. rewrite E. lia.
  - apply Byte.of_N_None_iff in E. lia.
Qed.

Lemma length_le_bytes (n : nat) (v : Z) : length (le_bytes n v) = n.
Proof. revert v. induction n as [|n IH]; intros v; cbn; [done|]. by rewrite IH. Qed.

Lemma le_value_le_bytes (n : nat) (v : Z) :
  le_value (le_bytes n v) = v mod 2 ^ (8 * Z.of_nat n).
Proof.
  revert v. induction n as [|n IH]; intros v.
  - cbn. by rewrite Z.mod_1_r.
  - cbn [le_bytes le_value]. rewrite IH, Z_of_byte_of_Z, Z.shiftr_div_pow2 by lia.
    replace (8 * Z.of_nat (S n)) with (8 + 8 * Z.of_nat n) by lia.
    rewrite Z.pow_add_r by lia. change (2 ^ 8) with 256.
    rewrite Z.rem_mul_r by lia. reflexivity.
Qed.

Lemma rev_order_bytes (bo : byteorder) (bs : bytes) :
  order_bytes bo (order_bytes bo bs) = bs.
Proof. destruct bo; cbn; [done|apply rev_involutive]. Qed.

Lemma length_order_bytes (bo : byteorder) (bs : bytes) :
  length (order_bytes bo bs) = length bs.
Proof. destruct bo; cbn; [done|apply length_rev]. Qed.

Lemma pack_i_ok (bo : byteorder) (v : Z) :
  int32 v -> pack_i bo v = Ok (order_bytes bo (le_bytes 4 (v mod 2 ^ 32))).
Proof.
  unfold int32, pack_i. intros [H1 H2].
  destruct (Z.leb_spec (- 2 ^ 31) v); [|lia].
  destruct (Z.ltb_spec v (2 ^ 31)); [|lia]. reflexivity.
Qed.

Lemma pack_i_inv (bo : byteorder) (v : Z) (b : bytes) :
  pack_i bo v = Ok b ->
  int32 v /\ b = order_bytes bo (le_bytes 4 (v mod 2 ^ 32)).
Proof.
  unfold int32, pack_i.
  destruct (Z.leb_spec (- 2 ^ 31) v); destruct (Z.ltb_spec v (2 ^ 31));
    cbn; intros E; inversion E; split; [lia|reflexivity].
Qed.

Lemma pack_i_length (bo : byteorder) (v : Z) (b : bytes) :
  pack_i bo v = Ok b -> length b = 4%nat.
Proof.
  intros E. apply pack_i_inv in E as [_ ->].
  by rewrite length_order_bytes, length_le_bytes.
Qed.

Lemma unpack_pack_i (bo : byteorder) (v : Z) (b : bytes) :
  pack_i bo v = Ok b -> unpack_i bo b = v.
Proof.
  intros E. apply pack_i_inv in E as [[H1 H2] ->].
  unfold unpack_i. rewrite rev_order_bytes, le_value_le_bytes.
  change (2 ^ (8 * Z.of_nat 4)) with (2 ^ 32).
  rewrite Z.mod_mod by lia.
  destruct (Z_lt_le_dec v 0).
  - replace (v mod 2 ^ 32) with (v + 2 ^ 32).
    + destruct (Z.ltb_spec (v + 2 ^ 32) (2 ^ 31)); lia.
    + symmetry. rewrite <- (Z.mod_add v 1 (2 ^ 32)) by lia.
      apply Z.mod_small. lia.
  - rewrite Z.mod_small by lia.
    destruct (Z.ltb_spec v (2 ^ 31)); lia.
Qed.

Lemma pack_ints_mapM (bo : byteorder) (values : list Z) (fields : list bytes) :
  mapM (pack_i bo) values = Ok fields ->
  pack_ints bo values = Ok (concat fields).
Proof.
  revert fields. induction values as [|v vs IH]; intros fields; cbn.
  - intros E. inversion E. reflexivity.
  - destruct (pack_i bo v) as [b|e]; cbn; [|discriminate].
    destruct (mapM (pack_i bo) vs) as [bs|e]; cbn; [|discriminate].
    intros E. inversion E. rewrite (IH bs eq_refl). reflexivity.
Qed.

Lemma pack_ints_inv (bo : byteorder) (values : list Z) (b : bytes) :
  pack_ints bo values = Ok b ->
  exists fields, mapM (pack_i bo) values = Ok fields /\ b = concat fields.
Proof.
  revert b. induction values as [|v vs IH]; intros b; cbn.
  - intros E. inversion E. by exists [].
  - destruct (pack_i bo v) as [b1|e]; cbn; [|discriminate].
    destruct (pack_ints bo vs) as [bs|e]; cbn; [|discriminate].
    destruct (IH bs eq_refl) as (fields & -> & ->). cbn.
    intros E. inversion E. by exists (b1 :: fields).
Qed.

Lemma mapM_pack_i_ok (bo : byteorder) (values : list Z) :
  Forall int32 values ->
  exists fields,
    mapM (pack_i bo) values = Ok fields /\
    length fields = length values /\
    Forall (fun b => length b = 4%nat) fields /\
    Forall2 (fun b v => unpack_i bo b = v) fields values.
Proof.
  induction 1 as [|v vs Hv _ (fields & E & L & F4 & FU)].
  - exists []. repeat split; constructor.
  - destruct (pack_i bo v) as [b|e] eqn:Eb;
      [|rewrite pack_i_ok in Eb by done; discriminate].
    exists (b :: fields). cbn. rewrite Eb. cbn. rewrite E. cbn.
    repeat split; [by rewrite L| |].
    + constructor; [by eapply pack_i_length|done].
    + constructor; [by eapply unpack_pack_i|done].
Qed.

Lemma write_nil (f : file) : write [] f = f.
Proof. destruct f as [c p]. unfold write. cbn. f_equal. lia. Qed.

Lemma write_at_nonempty (c : bytes) (p : nat) (bs : bytes) :
  bs <> [] ->
  write_at c p bs =
  take p c ++ replicate (p - length c) x00 ++ bs ++ drop (p + length bs) c.
Proof. destruct bs; [done|reflexivity]. Qed.

Lemma write_write (a b : bytes) (f : file) :
  write b (write a f) = write (a ++ b) f.
Proof.
  destruct (decide (a = [])) as [->|Ha]; [by rewrite write_nil|].
  destruct (decide (b = [])) as [->|Hb]; [by rewrite write_nil, app_nil_r|].
  destruct f as [c p]. unfold write. cbn [contents pos].
  f_equal; [|rewrite length_app; lia].
  rewrite !write_at_nonempty; [|by destruct a|done|done].
  rewrite (app_assoc (take p c)).
  set (X := take p c ++ replicate (p - length c) x00).
  assert (HX : length X = p).
  { unfold X. rewrite length_app, length_take, length_replicate. lia. }
  set (D := drop (p + length a) c).
  replace (take (p + length a) (X ++ a ++ D)) with (X ++ a).
  2:{ rewrite (app_assoc X a D). symmetry. apply take_app_length'.
      rewrite length_app. lia. }
  replace (p + length a - length (X ++ a ++ D))%nat with 0%nat
    by (rewrite !length_app; lia).
  cbn [replicate app].
  replace (drop (p + length a + length b) (X ++ a ++ D))
    with (drop (p + length (a ++ b)) c).
  2:{ rewrite (app_assoc X a D).
      replace (p + length a + length b)%nat
        with (length (X ++ a) + length b)%nat by (rewrite length_app; lia).
      rewrite drop_app_add'; [|done]. unfold D. rewrite drop_drop.
      f_equal. rewrite length_app. lia. }
  unfold X. by rewrite <- !app_assoc.
Qed.

Lemma tell_write (bs : bytes) (f : file) : tell (write bs f) = tell f + len bs.
Proof. unfold tell, write, len. cbn. lia. Qed.

(** Running sequenced steps. *)
Lemma bind_run {A B} (m : io A) (k : A -> io B) (f : file) :
  (m ≫= k) f =
  match m f with
  | (f', Ok a) => k a f'
  | (f', Raise e) => (f', Raise e)
  end.
Proof. reflexivity. Qed.

Lemma bind_lift_ok {A B} (a : A) (k : A -> io B) (f : file) :
  (lift (Ok a) ≫= k) f = k a f.
Proof. reflexivity. Qed.

Lemma bind_fwrite {B} (bs : bytes) (k : unit -> io B) (f : file) :
  (fwrite bs ≫= k) f = k tt (write bs f).
Proof. reflexivity. Qed.

(** ** Size arithmetic: properties *)

Lemma WTYPES_dom (ftype t : Z) :
  WTYPES !! ftype = Some t ->
  (ftype = 0 /\ t = GGML_TYPE_F32) \/ (ftype = 1 /\ t = GGML_TYPE_F16) \/
  (ftype = 2 /\ t = GGML_TYPE_Q4_0) \/ (ftype = 3 /\ t = GGML_TYPE_Q4_1).
Proof.
  unfold WTYPES. intros H.
  destruct (decide (ftype = 0)) as [->|]; [left; split; [done|]; vm_compute in H; by inversion H|].
  rewrite lookup_insert_ne in H by done.
  destruct (decide (ftype = 1)) as [->|]; [right; left; split; [done|]; vm_compute in H; by inversion H|].
  rewrite lookup_insert_ne in H by done.
  destruct (decide (ftype = 2)) as [->|]; [right; right; left; split; [done|]; vm_compute in H; by inversion H|].
  rewrite lookup_insert_ne in H by done.
  destruct (decide (ftype = 3)) as [->|]; [right; right; right; split; [done|]; vm_compute in H; by inversion H|].
  rewrite lookup_insert_ne in H by done.
  rewrite lookup_empty in H. discriminate.
Qed.

Lemma divide_mul_exact (x ts bs : Z) :
  0 < bs -> x mod bs = 0 -> (x * ts) mod bs = 0 /\ x * ts / bs = x / bs * ts.
Proof.
  intros Hbs Hx.
  apply Z.mod_divide in Hx; [|lia]. destruct Hx as [q ->].
  split.
  - replace (q * bs * ts) with (q * ts * bs) by lia. apply Z.mod_mul. lia.
  - replace (q * bs * ts) with (q * ts * bs) by lia.
    rewrite !Z.div_mul by lia. reflexivity.
Qed.

(** C6. For each of the four encodings of [WTYPES], with block width [bw]
    and bytes per block [bpb] read from the registry: the block width is 1
    for F32 and F16 and 32 for Q4_0 and Q4_1, and for every shape whose
    element count is a multiple of [bw], [ggml_nbytes] returns
    [element_count * bpb / bw] and that division leaves no remainder. *)
Theorem ggml_nbytes_exact (shape : list Z) (ftype t bw bpb : Z) :
  WTYPES !! ftype = Some t ->
  GGML_BLCK_SIZE !! t = Some bw ->
  GGML_TYPE_SIZE !! t = Some bpb ->
  ggml_nelements shape mod bw = 0 ->
  bw = (if (t =? GGML_TYPE_F32) || (t =? GGML_TYPE_F16) then 1 else 32) /\
  ggml_nbytes shape ftype = Ok (ggml_nelements shape * bpb / bw) /\
  (ggml_nelements shape * bpb) mod bw = 0 /\
  bw * (ggml_nelements shape * bpb / bw) = ggml_nelements shape * bpb.
Proof.
  intros Ht Hbw Hbpb Hmul.
  unfold ggml_nbytes, getitem. rewrite Ht. cbn [mbind result_bind].
  rewrite Hbpb, Hbw. cbn [mbind result_bind]. unfold floordiv.
  assert (Hpos : 0 < bw /\
    bw = (if (t =? GGML_TYPE_F32) || (t =? GGML_TYPE_F16) then 1 else 32)).
  { destruct (WTYPES_dom _ _ Ht) as [[_ ->]|[[_ ->]|[[_ ->]|[_ ->]]]];
      vm_compute in Hbw; inversion Hbw; split; reflexivity. }
  destruct Hpos as [Hpos Hval].
  destruct (Z.eqb_spec bw 0) as [->|_]; [lia|].
  destruct (divide_mul_exact (ggml_nelements shape) bpb bw Hpos Hmul) as [Hm Hd].
  repeat split; try done.
  pose proof (Z.div_mod (ggml_nelements shape * bpb) bw ltac:(lia)). lia.
Qed.

(** ** Shard-count lookup: properties *)

Lemma get_n_parts_unknown (dim : Z) :
  dim <> 4096 -> dim <> 5120 -> dim <> 6656 -> dim <> 8192 ->
  get_n_parts dim = Raise (SystemExit 1).
Proof.
  intros H1 H2 H3 H4. unfold get_n_parts.
  rewrite !lookup_insert_ne by congruence.
  rewrite lookup_empty. reflexivity.
Qed.

Lemma hparams_dim (params : gmap string Z) (tok : tokenizer pyfloat) :
  (load_hparams_and_tokenizer params tok).1 !! "dim" = params !! "dim".
Proof. cbn. apply lookup_insert_ne. discriminate. Qed.

(** C8. The lookup gives 1, 2, 4 and 8 shards for the embedding dimensions
    4096, 5120, 6656 and 8192.  For any other dimension it exits with status
    1, and a conversion run ([vocab_only] off) with such a dimension in its
    hyperparameters ends with that exit before the output file is opened,
    so that no tensor output (no output at all) exists. *)
Theorem shard_count_lookup
  (ftype dim : Z) (params : gmap string Z) (tok : tokenizer pyfloat)
  (torch_load : Z -> result model) :
  ftype = 0 \/ ftype = 1 \/ ftype = 2 ->
  params !! "dim" = Some dim ->
  get_n_parts 4096 = Ok 1 /\ get_n_parts 5120 = Ok 2 /\
  get_n_parts 6656 = Ok 4 /\ get_n_parts 8192 = Ok 8 /\
  (dim <> 4096 -> dim <> 5120 -> dim <> 6656 -> dim <> 8192 ->
   get_n_parts dim = Raise (SystemExit 1) /\
   main ftype false params tok torch_load = (None, Raise (SystemExit 1))).
Proof.
  intros Hf Hdim.
  split; [vm_compute; reflexivity|]. split; [vm_compute; reflexivity|].
  split; [vm_compute; reflexivity|]. split; [vm_compute; reflexivity|].
  intros H1 H2 H3 H4. split.
  - by apply get_n_parts_unknown.
  - unfold main.
    replace ((ftype =? 0) || (ftype =? 1) || (ftype =? 2)) with true
      by (destruct Hf as [->|[->| ->]]; reflexivity).
    cbn [negb]. pose proof (hparams_dim params tok) as Hd.
    destruct (load_hparams_and_tokenizer params tok) as [hparams tokenizer'].
    cbn [fst] in Hd. unfold getitem. rewrite Hd, Hdim. cbn [mbind result_bind].
    rewrite get_n_parts_unknown by assumption. reflexivity.
Qed.

(** ** Layout planning: properties *)

(** C9. For a rank-2 tensor the partition axis follows the name, in this
    priority: the embedding-table marker gives axis 1; otherwise the
    per-layer marker gives axis 1 with the attention-output or the
    feed-forward second-projection marker and axis 0 without them;
    otherwise the final-output marker gives axis 0; a name with none of the
    markers gets axis 1. *)
Theorem split_axis_by_name (name : pystr) :
  let has (marker : string) := contains (pystr_of marker) name = true in
  (has "tok_embeddings" -> plan_split_dim 2 name = Some 1) /\
  (~ has "tok_embeddings" -> has "layers" ->
   has "attention.wo.weight" \/ has "feed_forward.w2.weight" ->
   plan_split_dim 2 name = Some 1) /\
  (~ has "tok_embeddings" -> has "layers" ->
   ~ has "attention.wo.weight" -> ~ has "feed_forward.w2.weight" ->
   plan_split_dim 2 name = Some 0) /\
  (~ has "tok_embeddings" -> ~ has "layers" -> has "output" ->
   plan_split_dim 2 name = Some 0) /\
  (~ has "tok_embeddings" -> ~ has "layers" -> ~ has "output" ->
   plan_split_dim 2 name = Some 1).
Proof.
  intros has. subst has. unfold plan_split_dim.
  change (1 <? 2) with true. cbv iota.
  destruct (contains (pystr_of "tok_embeddings") name);
  destruct (contains (pystr_of "layers") name);
  destruct (contains (pystr_of "attention.wo.weight") name);
  destruct (contains (pystr_of "feed_forward.w2.weight") name);
  destruct (contains (pystr_of "output") name);
  repeat split; intros; try reflexivity; try congruence;
  repeat match goal with
         | H : _ \/ _ |- _ => destruct H
         | H : ~ (true = true) |- _ => exfalso; apply H; reflexivity
         end; congruence.
Qed.

(** C5. The encoding of a tensor depends on the selector and the rank
    only: selector 0 or rank 1 give tag 0, which [WTYPES] maps to F32, and
    the data converted to float32; every other case gives tag 1, which
    [WTYPES] maps to F16, and leaves the data as loaded.  The tag is never
    one that [WTYPES] maps to Q4_0 or Q4_1. *)
Theorem tensor_encoding_decision (ftype n_dims : Z) (data : ndarray) :
  (ftype = 0 \/ n_dims = 1 ->
   plan_encoding ftype n_dims data = (astype_float32 data, 0) /\
   a_dtype (astype_float32 data) = float32) /\
  (ftype <> 0 -> n_dims <> 1 -> plan_encoding ftype n_dims data = (data, 1)) /\
  WTYPES !! 0 = Some GGML_TYPE_F32 /\
  WTYPES !! 1 = Some GGML_TYPE_F16 /\
  WTYPES !! (plan_encoding ftype n_dims data).2 <> Some GGML_TYPE_Q4_0 /\
  WTYPES !! (plan_encoding ftype n_dims data).2 <> Some GGML_TYPE_Q4_1.
Proof.
  assert (W0 : WTYPES !! 0 = Some GGML_TYPE_F32) by (vm_compute; reflexivity).
  assert (W1 : WTYPES !! 1 = Some GGML_TYPE_F16) by (vm_compute; reflexivity).
  unfold plan_encoding.
  destruct (Z.eqb_spec ftype 0) as [E0|N0];
  destruct (Z.eqb_spec n_dims 1) as [E1|N1]; cbn [orb snd];
  (split; [intros H; try (destruct H; lia); split; reflexivity|]);
  (split; [intros; try lia; reflexivity|]);
  (split; [exact W0|]); (split; [exact W1|]);
  rewrite ?W0, ?W1; split; intros H; inversion H.
Qed.

(** ** Header: properties *)

Lemma write_header_values
  (hparams : gmap string Z) (ftype : Z) (f : file)
  (n_vocab dim multiple_of n_heads n_layers : Z) :
  hparams !! "vocab_size" = Some n_vocab ->
  hparams !! "dim" = Some dim ->
  hparams !! "multiple_of" = Some multiple_of ->
  hparams !! "n_heads" = Some n_heads ->
  hparams !! "n_layers" = Some n_layers ->
  n_heads <> 0 ->
  write_header hparams ftype f =
  (lift (pack_ints native
           [0x67676a74; 1; n_vocab; dim; multiple_of; n_heads; n_layers;
            dim / n_heads; ftype]) ≫= fwrite) f.
Proof.
  intros Hv Hd Hm Hh Hl Hnz. unfold write_header, getitem.
  cbn [mapM]. rewrite Hv, Hd, Hm, Hh, Hl. cbn [mbind result_bind mret result_ret].
  rewrite bind_lift_ok. rewrite bind_lift_ok. rewrite bind_lift_ok.
  unfold floordiv. destruct (Z.eqb_spec n_heads 0) as [|_]; [done|].
  rewrite bind_lift_ok. reflexivity.
Qed.

(** C3, as the code has it. The header is nine 4-byte native integers in
    this order: the magic constant, the version constant 1, vocab_size,
    embedding_dim, multiple_of, head_count, layer_count, the rotary
    dimension embedding_dim // head_count, and the encoding selector. *)
Theorem header_layout
  (hparams : gmap string Z) (ftype : Z) (f : file)
  (n_vocab dim multiple_of n_heads n_layers : Z) :
  hparams !! "vocab_size" = Some n_vocab ->
  hparams !! "dim" = Some dim ->
  hparams !! "multiple_of" = Some multiple_of ->
  hparams !! "n_heads" = Some n_heads ->
  hparams !! "n_layers" = Some n_layers ->
  n_heads <> 0 ->
  Forall int32 [n_vocab; dim; multiple_of; n_heads; n_layers; dim / n_heads; ftype] ->
  exists fields,
    write_header hparams ftype f = (write (concat fields) f, Ok tt) /\
    length fields = 9%nat /\
    Forall (fun b => length b = 4%nat) fields /\
    Forall2 (fun b v => pack_i native v = Ok b /\ unpack_i native b = v) fields
      [0x67676a74; 1; n_vocab; dim; multiple_of; n_heads; n_layers;
       dim / n_heads; ftype].
Proof.
  intros Hv Hd Hm Hh Hl Hnz Hr.
  set (values := [0x67676a74; 1; n_vocab; dim; multiple_of; n_heads; n_layers;
                  dim / n_heads; ftype]).
  assert (Hall : Forall int32 values).
  { unfold values. repeat (constructor; [unfold int32; lia|]). exact Hr. }
  destruct (mapM_pack_i_ok native values Hall) as (fields & E & L & F4 & FU).
  exists fields. split; [|split; [exact L|split; [exact F4|]]].
  - rewrite (write_header_values _ _ _ _ _ _ _ _ Hv Hd Hm Hh Hl Hnz).
    fold values. rewrite (pack_ints_mapM _ _ _ E). reflexivity.
  - clear -E. revert fields E. generalize values. intros vs.
    induction vs as [|v vs IH]; intros fields; cbn.
    + intros E. inversion E. constructor.
    + destruct (pack_i native v) as [b|e] eqn:Eb; cbn; [|discriminate].
      destruct (mapM (pack_i native) vs) as [bs|e]; cbn; [|discriminate].
      intros E. inversion E. constructor; [|by apply IH].
      split; [done|by eapply unpack_pack_i].
Qed.

(** ** Tensor records: properties *)

Lemma align_loop_spec (f : file) (off : Z) :
  align_loop f off =
  (write (replicate (Z.to_nat ((- off) mod QK)) x00) f, off + (- off) mod QK).
Proof.
  funelim (align_loop f off).
  - clear Heqcall.
    replace ((- tensor_data_offset) mod QK) with 0.
    + cbn. rewrite write_nil. f_equal. lia.
    + symmetry. unfold QK in *. apply Z.mod_divide; [lia|].
      apply Z.divide_opp_r. apply Z.mod_divide; [lia|done].
  - rewrite H. clear H Heqcall. unfold QK in *.
    pose proof (Z.div_mod tensor_data_offset 32 ltac:(lia)) as E.
    pose proof (Z.mod_pos_bound tensor_data_offset 32 ltac:(lia)) as B.
    set (q := tensor_data_offset / 32) in *.
    set (r := tensor_data_offset mod 32) in *.
    assert (E1 : (- tensor_data_offset) mod 32 = 32 - r).
    { replace (- tensor_data_offset) with ((32 - r) + (- q - 1) * 32) by lia.
      rewrite Z.mod_add by lia. apply Z.mod_small. lia. }
    assert (E2 : (- (tensor_data_offset + 1)) mod 32 = 32 - r - 1).
    { replace (- (tensor_data_offset + 1)) with ((32 - r - 1) + (- q - 1) * 32) by lia.
      rewrite Z.mod_add by lia. apply Z.mod_small. lia. }
    rewrite E1, E2, write_write. f_equal; [|lia].
    replace (Z.to_nat (32 - r)) with (S (Z.to_nat (32 - r - 1))) by lia.
    reflexivity.
Qed.

Lemma align_body_spec (f : file) :
  exists pad : nat,
    align_body f = (write (replicate pad x00) f, Ok (tell f + Z.of_nat pad)) /\
    (tell f + Z.of_nat pad) mod 32 = 0 /\
    (pad < 32)%nat /\
    tell (write (replicate pad x00) f) = tell f + Z.of_nat pad.
Proof.
  exists (Z.to_nat ((- tell f) mod QK)).
  pose proof (Z.mod_pos_bound (- tell f) QK ltac:(unfold QK; lia)) as B.
  unfold align_body. rewrite align_loop_spec.
  rewrite Z2Nat.id by lia. split; [reflexivity|]. unfold QK in *.
  split; [|split; [lia|]].
  - rewrite Z.add_mod_idemp_r by lia.
    replace (tell f + - tell f) with 0 by lia. reflexivity.
  - rewrite tell_write. unfold len. rewrite length_replicate. lia.
Qed.

Lemma for_each_pack_dims (dims : list Z) (f f1 : file) :
  for_each dims (fun dim => d ← lift (pack_i native dim); fwrite d) f = (f1, Ok tt) ->
  exists ds,
    mapM (pack_i native) dims = Ok ds /\
    length ds = length dims /\
    Forall (fun b => length b = 4%nat) ds /\
    f1 = write (concat ds) f.
Proof.
  revert f. induction dims as [|dim dims IH]; intros f; cbn [for_each].
  - intros E. inversion E. exists []. cbn. rewrite write_nil.
    repeat split; constructor.
  - rewrite bind_run, bind_run. unfold lift at 1.
    destruct (pack_i native dim) as [d|e] eqn:Ed; [|discriminate].
    cbn [fwrite]. intros E. apply IH in E as (ds & Em & L & F4 & ->).
    exists (d :: ds). cbn [mapM]. rewrite Ed, Em. cbn. rewrite write_write.
    repeat split; [by rewrite L|].
    constructor; [by eapply pack_i_length|done].
Qed.

Lemma write_record_header_spec
  (n_dims : Z) (sname : bytes) (ftype_cur : Z) (partshape : list Z) (f f1 : file) :
  write_record_header n_dims sname ftype_cur partshape f = (f1, Ok tt) ->
  exists h ds,
    pack_ints native [n_dims; len sname; ftype_cur] = Ok h /\
    length h = 12%nat /\
    mapM (pack_i native) (rev partshape) = Ok ds /\
    length (concat ds) = (4 * length partshape)%nat /\
    f1 = write (h ++ concat ds ++ sname) f.
Proof.
  unfold write_record_header. rewrite bind_run. unfold lift at 1.
  destruct (pack_ints native _) as [h|e] eqn:Eh; [|discriminate].
  rewrite bind_fwrite, bind_run.
  destruct (for_each _ _ _) as [f2 [[]|]] eqn:Ef; [|discriminate].
  apply for_each_pack_dims in Ef as (ds & Em & L & F4 & ->).
  unfold fwrite. intros E. inversion E. exists h, ds.
  split; [done|]. split.
  { cbn in Eh.
    destruct (pack_i native n_dims) as [b1|] eqn:E1; cbn in Eh; [|discriminate].
    destruct (pack_i native (len sname)) as [b2|] eqn:E2; cbn in Eh; [|discriminate].
    destruct (pack_i native ftype_cur) as [b3|] eqn:E3; cbn in Eh; [|discriminate].
    inversion Eh. rewrite !length_app.
    rewrite (pack_i_length _ _ _ E1), (pack_i_length _ _ _ E2),
      (pack_i_length _ _ _ E3). reflexivity. }
  split; [done|]. split.
  { rewrite length_rev in L. rewrite <- L. clear -F4.
    induction F4 as [|b ds Hb _ IH]; cbn; [done|].
    rewrite length_app, IH, Hb. lia. }
  by rewrite !write_write.
Qed.

Lemma write_variable_steps
  (ftype part_id n_parts : Z) (name : pystr) (datao : tensor) (f f' : file) :
  endswith (pystr_of "freqs") name = false ->
  write_variable ftype part_id n_parts name datao f = (f', Ok tt) ->
  exists a data ftype_cur wtype blck_size type_size sname f1 pad f3 nbytes,
    numpy datao = Ok a /\
    in_1_2 (len (shape (squeeze a))) = true /\
    plan_encoding ftype (len (shape (squeeze a))) (squeeze a) = (data, ftype_cur) /\
    WTYPES !! ftype_cur = Some wtype /\
    GGML_BLCK_SIZE !! wtype = Some blck_size /\
    GGML_TYPE_SIZE !! wtype = Some type_size /\
    encode name = Ok sname /\
    write_record_header (len (shape (squeeze a))) sname ftype_cur
      (shape (squeeze a)) f = (f1, Ok tt) /\
    align_body f1 = (write (replicate pad x00) f1, Ok (tell f1 + Z.of_nat pad)) /\
    (pad < 32)%nat /\
    (tell f1 + Z.of_nat pad) mod 32 = 0 /\
    place_data data (shape (squeeze a)) (len (shape (squeeze a))) part_id n_parts
      (plan_split_dim (len (shape (squeeze a))) name) blck_size type_size
      (tell f1 + Z.of_nat pad) (write (replicate pad x00) f1) = (f3, Ok tt) /\
    ggml_nbytes (shape (squeeze a)) ftype_cur = Ok nbytes /\
    0 <= tell f1 + Z.of_nat pad + nbytes /\
    f' = mkfile (contents f3) (Z.to_nat (tell f1 + Z.of_nat pad + nbytes)).
Proof.
  intros Hs H. unfold write_variable in H. rewrite Hs in H.
  rewrite bind_run in H. unfold lift at 1 in H.
  destruct (numpy datao) as [a|e] eqn:En; cbn [fmap result_fmap] in H; [|discriminate].
  destruct (in_1_2 (len (shape (squeeze a)))) eqn:Hr; cbn [negb] in H; [|discriminate].
  destruct (plan_encoding ftype (len (shape (squeeze a))) (squeeze a))
    as [data ftype_cur] eqn:Hp.
  rewrite bind_run in H. unfold lift at 1, getitem at 1 in H.
  destruct (WTYPES !! ftype_cur) as [wtype|] eqn:Hw; [|discriminate].
  rewrite bind_run in H. unfold lift at 1, getitem at 1 in H.
  destruct (GGML_BLCK_SIZE !! wtype) as [blck_size|] eqn:Hb; [|discriminate].
  rewrite bind_run in H. unfold lift at 1, getitem at 1 in H.
  destruct (GGML_TYPE_SIZE !! wtype) as [type_size|] eqn:Ht; [|discriminate].
  rewrite bind_run in H. unfold lift at 1 in H.
  destruct (encode name) as [sname|] eqn:Es; [|discriminate].
  rewrite bind_run in H.
  destruct (write_record_header _ _ _ _ f) as [f1 [[]|]] eqn:Eh; [|discriminate].
  rewrite bind_run in H.
  destruct (align_body_spec f1) as (pad & Ea & Hmod & Hpad & _).
  rewrite Ea in H.
  rewrite bind_run in H.
  destruct (place_data _ _ _ _ _ _ _ _ _ _) as [f3 [[]|]] eqn:Epl; [|discriminate].
  rewrite bind_run in H. unfold lift at 1 in H.
  destruct (ggml_nbytes _ _) as [nbytes|] eqn:Enb; [|discriminate].
  unfold fseek in H.
  destruct (Z.ltb_spec (tell f1 + Z.of_nat pad + nbytes) 0); [discriminate|].
  inversion H.
  exists a, data, ftype_cur, wtype, blck_size, type_size, sname, f1, pad, f3, nbytes.
  repeat split; done.
Qed.

(** After a record the cursor stands at the body start plus the byte size
    of the shape this shard holds. *)
Lemma write_variable_cursor
  (ftype part_id n_parts : Z) (name : pystr) (datao : tensor) (f f' : file) :
  endswith (pystr_of "freqs") name = false ->
  write_variable ftype part_id n_parts name datao f = (f', Ok tt) ->
  exists a data ftype_cur body_start nbytes,
    numpy datao = Ok a /\
    plan_encoding ftype (len (shape (squeeze a))) (squeeze a) = (data, ftype_cur) /\
    body_start mod 32 = 0 /\
    ggml_nbytes (shape (squeeze a)) ftype_cur = Ok nbytes /\
    tell f' = body_start + nbytes.
Proof.
  intros Hs H.
  destruct (write_variable_steps _ _ _ _ _ _ _ Hs H)
    as (a & data & ftype_cur & wtype & blck_size & type_size & sname & f1 & pad
        & f3 & nbytes & En & _ & Hp & _ & _ & _ & _ & _ & _ & _ & Hmod & _
        & Enb & Hpos & ->).
  exists a, data, ftype_cur, (tell f1 + Z.of_nat pad), nbytes.
  repeat split; try done. unfold tell at 1. cbn [pos]. lia.
Qed.

(** Row partition: shard [part_id] writes its whole buffer at
    [part_id * rows * bytes_per_row] past the body start. *)
Lemma place_data_rows
  (data : ndarray) (rows cols part_id n_parts blck_size type_size body_start : Z)
  (f : file) :
  n_parts <> 1 -> blck_size <> 0 ->
  0 <= body_start + part_id * rows * (cols / blck_size * type_size) ->
  place_data data [rows; cols] 2 part_id n_parts (Some 0) blck_size type_size
    body_start f =
  (write (tobytes data)
     (mkfile (contents f)
        (Z.to_nat (body_start + part_id * rows * (cols / blck_size * type_size)))),
   Ok tt).
Proof.
  intros Hn Hb Hpos. unfold place_data.
  change (2 =? 1) with false. destruct (Z.eqb_spec n_parts 1) as [|_]; [done|].
  cbn [orb]. rewrite bind_lift_ok. change (0 =? 0) with true. cbv iota.
  change (index [rows; cols] 0) with (Ok rows). rewrite bind_lift_ok.
  change (index [rows; cols] 1) with (Ok cols). rewrite bind_lift_ok.
  unfold floordiv. destruct (Z.eqb_spec blck_size 0) as [|_]; [done|].
  rewrite bind_lift_ok, bind_run. unfold fseek.
  destruct (Z.ltb_spec (body_start + part_id * rows * (cols / blck_size * type_size)) 0);
    [lia|]. reflexivity.
Qed.

(** Column partition: shard [part_id] writes its rows one by one, row
    [row] at [row * bytes_per_row + part_id * cols // blck_size * type_size]
    past the body start, where [bytes_per_row] is the byte width of the
    shard's own row. *)
Lemma place_data_columns
  (data : ndarray) (rows cols part_id n_parts blck_size type_size body_start : Z)
  (f : file) :
  n_parts <> 1 -> blck_size <> 0 ->
  place_data data [rows; cols] 2 part_id n_parts (Some 1) blck_size type_size
    body_start f =
  for_each (range rows) (fun row =>
    fseek (body_start + (row * (cols / blck_size * type_size)
                         + part_id * cols / blck_size * type_size));;
    tofile (row_of data row)) f.
Proof.
  intros Hn Hb. unfold place_data.
  change (2 =? 1) with false. destruct (Z.eqb_spec n_parts 1) as [|_]; [done|].
  cbn [orb]. rewrite bind_lift_ok. change (1 =? 0) with false.
  change (1 =? 1) with true. cbv iota.
  change (index [rows; cols] 1) with (Ok cols). rewrite !bind_lift_ok.
  unfold floordiv. destruct (Z.eqb_spec blck_size 0) as [|_]; [done|].
  rewrite !bind_lift_ok.
  change (index [rows; cols] 0) with (Ok rows). rewrite bind_lift_ok.
  reflexivity.
Qed.

(** Row partition, read from a run that succeeded: the seek target was
    not negative, and the buffer went there. *)
Lemma place_data_rows_ok
  (data : ndarray) (rows cols part_id n_parts blck_size type_size body_start : Z)
  (f f3 : file) :
  n_parts <> 1 -> blck_size <> 0 ->
  place_data data [rows; cols] 2 part_id n_parts (Some 0) blck_size type_size
    body_start f = (f3, Ok tt) ->
  0 <= body_start + part_id * rows * (cols / blck_size * type_size) /\
  f3 = write (tobytes data)
         (mkfile (contents f)
            (Z.to_nat (body_start + part_id * rows * (cols / blck_size * type_size)))).
Proof.
  intros Hn Hb E.
  destruct (Z.lt_ge_cases
              (body_start + part_id * rows * (cols / blck_size * type_size)) 0)
    as [Hneg|Hpos].
  - exfalso. revert E. unfold place_data.
    change (2 =? 1) with false. destruct (Z.eqb_spec n_parts 1) as [|_]; [done|].
    cbn [orb]. rewrite bind_lift_ok. change (0 =? 0) with true. cbv iota.
    change (index [rows; cols] 0) with (Ok rows). rewrite bind_lift_ok.
    change (index [rows; cols] 1) with (Ok cols). rewrite bind_lift_ok.
    unfold floordiv. destruct (Z.eqb_spec blck_size 0) as [|_]; [done|].
    rewrite bind_lift_ok, bind_run. unfold fseek.
    destruct (Z.ltb_spec (body_start + part_id * rows * (cols / blck_size * type_size)) 0);
      [discriminate|lia].
  - split; [exact Hpos|]. rewrite place_data_rows in E by done. by inversion E.
Qed.

Lemma place_data_whole
  (data : ndarray) (partshape : list Z) (n_dims part_id n_parts : Z)
  (split_dim : option Z) (blck_size type_size body_start : Z) (f : file) :
  n_dims = 1 \/ n_parts = 1 ->
  place_data data partshape n_dims part_id n_parts split_dim blck_size type_size
    body_start f =
  if part_id =? 0 then (write (tobytes data) f, Ok tt) else (f, Ok tt).
Proof.
  intros H. unfold place_data.
  replace ((n_dims =? 1) || (n_parts =? 1)) with true.
  - destruct (part_id =? 0); reflexivity.
  - symmetry. destruct H as [-> | ->]; [reflexivity|apply orb_true_r].
Qed.

Lemma ggml_nbytes_float (shape : list Z) (ftype_cur : Z) :
  ftype_cur = 0 \/ ftype_cur = 1 ->
  exists wtype type_size,
    WTYPES !! ftype_cur = Some wtype /\
    GGML_BLCK_SIZE !! wtype = Some 1 /\
    GGML_TYPE_SIZE !! wtype = Some type_size /\
    0 < type_size /\
    ggml_nbytes shape ftype_cur = Ok (ggml_nelements shape * type_size).
Proof.
  intros [-> | ->].
  - exists GGML_TYPE_F32, 4. repeat split; try reflexivity.
    unfold ggml_nbytes, getitem.
    change (WTYPES !! 0) with (Some GGML_TYPE_F32). cbn [mbind result_bind].
    change (GGML_TYPE_SIZE !! GGML_TYPE_F32) with (Some 4).
    change (GGML_BLCK_SIZE !! GGML_TYPE_F32) with (Some 1).
    cbn [mbind result_bind]. unfold floordiv. change (1 =? 0) with false.
    cbv iota. by rewrite Z.div_1_r.
  - exists GGML_TYPE_F16, 2. repeat split; try reflexivity.
    unfold ggml_nbytes, getitem.
    change (WTYPES !! 1) with (Some GGML_TYPE_F16). cbn [mbind result_bind].
    change (GGML_TYPE_SIZE !! GGML_TYPE_F16) with (Some 2).
    change (GGML_BLCK_SIZE !! GGML_TYPE_F16) with (Some 1).
    cbn [mbind result_bind]. unfold floordiv. change (1 =? 0) with false.
    cbv iota. by rewrite Z.div_1_r.
Qed.

(** C4. Whatever the cursor is, the alignment step emits [pad] zero bytes,
    fewer than 32, and returns [tell f + pad], a multiple of 32, where it
    leaves the cursor; it takes no argument for the tensor's encoding or
    block width.  In every tensor record that [write_variable] writes, the
    step runs right after the record header and the name, and the offset it
    returns is the body start from which the data is placed.

    Every step of the record is read off the file [f'] that
    [write_variable] returns.  The file [f1] at which the step runs is [f]
    with the three header integers, the dimensions in reverse and the name
    written, [12 + 4 * n_dims + len sname] bytes on.  The body start is
    [tell f1 + pad].  The data is placed from there: an unpartitioned
    tensor is written by shard 0 at the body start itself; with a row
    partition shard [part_id] seeks to the body start plus
    [part_id * rows * bytes_per_row] and writes its buffer; with a column
    partition it seeks, row by row, to the body start plus
    [row * bytes_per_row + part_id * cols // blck_size * type_size].  The
    block width that enters these offsets is 1.  The returned file is the
    outcome [f3] of the placement with the cursor at the body start plus
    [ggml_nbytes]. *)
Theorem body_start_aligned
  (ftype part_id n_parts : Z) (name : pystr) (datao : tensor) (f f' : file) :
  endswith (pystr_of "freqs") name = false ->
  write_variable ftype part_id n_parts name datao f = (f', Ok tt) ->
  (forall f0, exists pad : nat,
     align_body f0 = (write (replicate pad x00) f0, Ok (tell f0 + Z.of_nat pad)) /\
     (tell f0 + Z.of_nat pad) mod 32 = 0 /\ (pad < 32)%nat /\
     tell (write (replicate pad x00) f0) = tell f0 + Z.of_nat pad) /\
  exists a sname data ftype_cur blck_size type_size f1 pad f3,
    numpy datao = Ok a /\
    encode name = Ok sname /\
    write_record_header (len (shape (squeeze a))) sname ftype_cur
      (shape (squeeze a)) f = (f1, Ok tt) /\
    align_body f1 = (write (replicate pad x00) f1, Ok (tell f1 + Z.of_nat pad)) /\
    (tell f1 + Z.of_nat pad) mod 32 = 0 /\
    (pad < 32)%nat /\
    place_data data (shape (squeeze a)) (len (shape (squeeze a))) part_id n_parts
      (plan_split_dim (len (shape (squeeze a))) name) blck_size type_size
      (tell f1 + Z.of_nat pad) (write (replicate pad x00) f1) = (f3, Ok tt) /\
    plan_encoding ftype (len (shape (squeeze a))) (squeeze a) = (data, ftype_cur) /\
    (exists wtype,
       WTYPES !! ftype_cur = Some wtype /\
       GGML_BLCK_SIZE !! wtype = Some blck_size /\
       GGML_TYPE_SIZE !! wtype = Some type_size) /\
    blck_size = 1 /\
    (exists h dims,
       pack_ints native [len (shape (squeeze a)); len sname; ftype_cur] = Ok h /\
       mapM (pack_i native) (rev (shape (squeeze a))) = Ok dims /\
       f1 = write (h ++ concat dims ++ sname) f /\
       tell f1 = tell f + 12 + 4 * len (shape (squeeze a)) + len sname) /\
    tell (write (replicate pad x00) f1) = tell f1 + Z.of_nat pad /\
    (len (shape (squeeze a)) = 1 \/ n_parts = 1 ->
     f3 = if part_id =? 0
          then write (tobytes data) (write (replicate pad x00) f1)
          else write (replicate pad x00) f1) /\
    (forall rows cols,
       shape (squeeze a) = [rows; cols] -> n_parts <> 1 ->
       plan_split_dim 2 name = Some 0 ->
       0 <= tell f1 + Z.of_nat pad
            + part_id * rows * (cols / blck_size * type_size) /\
       f3 = write (tobytes data)
              (mkfile (contents (write (replicate pad x00) f1))
                 (Z.to_nat (tell f1 + Z.of_nat pad
                            + part_id * rows * (cols / blck_size * type_size))))) /\
    (forall rows cols,
       shape (squeeze a) = [rows; cols] -> n_parts <> 1 ->
       plan_split_dim 2 name = Some 1 ->
       for_each (range rows) (fun row =>
         fseek (tell f1 + Z.of_nat pad
                + (row * (cols / blck_size * type_size)
                   + part_id * cols / blck_size * type_size));;
         tofile (row_of data row)) (write (replicate pad x00) f1) = (f3, Ok tt)) /\
    exists nbytes,
      ggml_nbytes (shape (squeeze a)) ftype_cur = Ok nbytes /\
      0 <= tell f1 + Z.of_nat pad + nbytes /\
      f' = mkfile (contents f3) (Z.to_nat (tell f1 + Z.of_nat pad + nbytes)).
Proof.
  intros Hs H. split; [exact align_body_spec|].
  destruct (write_variable_steps _ _ _ _ _ _ _ Hs H)
    as (a & data & ftype_cur & wtype & blck_size & type_size & sname & f1 & pad
        & f3 & nbytes & En & Hr & Hp & Hw & Hb & Ht & Es & Eh & Ea & Hpad & Hmod
        & Epl & Enb & Hpos & Hf').
  assert (Hb1 : blck_size = 1).
  { assert (Hfc : ftype_cur = 0 \/ ftype_cur = 1).
    { unfold plan_encoding in Hp. destruct (_ || _); inversion Hp; auto. }
    destruct (ggml_nbytes_float (shape (squeeze a)) ftype_cur Hfc)
      as (wtype' & ts & Hw' & Hb' & _).
    congruence. }
  destruct (write_record_header_spec _ _ _ _ _ _ Eh)
    as (h & dims & Ehd & Lh & Edims & Ldims & Ef1).
  exists a, sname, data, ftype_cur, blck_size, type_size, f1, pad, f3.
  split; [exact En|]. split; [exact Es|]. split; [exact Eh|].
  split; [exact Ea|]. split; [exact Hmod|]. split; [exact Hpad|].
  split; [exact Epl|]. split; [exact Hp|].
  split; [by exists wtype|]. split; [exact Hb1|].
  split.
  { exists h, dims. split; [exact Ehd|]. split; [exact Edims|].
    split; [exact Ef1|]. rewrite Ef1, tell_write. unfold len.
    rewrite !length_app, Lh, Ldims. lia. }
  split.
  { rewrite tell_write. unfold len. rewrite length_replicate. reflexivity. }
  split.
  { intros Hw1. rewrite place_data_whole in Epl by exact Hw1.
    destruct (part_id =? 0); by inversion Epl. }
  split.
  { intros rows cols Hsh Hn Hsd. rewrite Hsh in Epl.
    change (len [rows; cols]) with 2 in Epl. rewrite Hsd in Epl.
    apply place_data_rows_ok in Epl; [exact Epl|exact Hn|lia]. }
  split.
  { intros rows cols Hsh Hn Hsd. rewrite Hsh in Epl.
    change (len [rows; cols]) with 2 in Epl. rewrite Hsd in Epl.
    rewrite place_data_columns in Epl by (exact Hn || lia). exact Epl. }
  exists nbytes. split; [exact Enb|]. split; [exact Hpos|exact Hf'].
Qed.

(** With that stride (and block width 1, as for F32 and F16) the offset
    of row [row + 1] of shard [part_id] is the offset of row [row] of shard
    [part_id + 1]: the later write replaces the earlier one. *)
Lemma column_offsets_collide (cols type_size part_id row : Z) :
  let bytes_per_row := cols / 1 * type_size in
  let offset k r := r * bytes_per_row + k * cols / 1 * type_size in
  offset part_id (row + 1) = offset (part_id + 1) row.
Proof. cbv zeta. rewrite !Z.div_1_r. lia. Qed.

(** Row partition, any shard after the first: the cursor is left at the
    body start plus the size of one part, which is at or before the place
    where this shard has just written its rows. *)
Lemma cursor_not_past_own_rows
  (ftype part_id n_parts : Z) (name : pystr) (datao : tensor) (f f' : file)
  (a : ndarray) (rows cols : Z) :
  endswith (pystr_of "freqs") name = false ->
  write_variable ftype part_id n_parts name datao f = (f', Ok tt) ->
  numpy datao = Ok a ->
  shape (squeeze a) = [rows; cols] ->
  plan_split_dim 2 name = Some 0 ->
  n_parts <> 1 -> 0 <= rows -> 0 <= cols -> 1 <= part_id ->
  exists body_start type_size data f2,
    (type_size = 4 \/ type_size = 2) /\
    body_start mod 32 = 0 /\
    ggml_nbytes [rows; cols] (plan_encoding ftype 2 (squeeze a)).2
      = Ok (rows * cols * type_size) /\
    contents f' =
      contents (write (tobytes data)
                  (mkfile (contents f2)
                     (Z.to_nat (body_start + part_id * (rows * cols * type_size))))) /\
    tell f' = body_start + rows * cols * type_size /\
    tell f' <= body_start + part_id * (rows * cols * type_size).
Proof.
  intros Hs H En Hsh Hsd Hn Hr Hc Hk.
  destruct (write_variable_steps _ _ _ _ _ _ _ Hs H)
    as (a' & data & ftype_cur & wtype & blck_size & type_size & sname & f1 & pad
        & f3 & nbytes & En' & _ & Hp & Hw & Hb & Ht & _ & _ & _ & _ & Hmod & Epl
        & Enb & Hpos & ->).
  rewrite En in En'. inversion En'; subst a'. clear En'.
  rewrite Hsh in *. change (len [rows; cols]) with 2 in *.
  rewrite Hsd in Epl.
  assert (Hcur : plan_encoding ftype 2 (squeeze a) = (data, ftype_cur)) by exact Hp.
  assert (Hty : blck_size = 1 /\ (type_size = 4 \/ type_size = 2)).
  { unfold plan_encoding in Hp. destruct ((ftype =? 0) || (2 =? 1));
      inversion Hp; subst; vm_compute in Hw; inversion Hw; subst;
      vm_compute in Hb; vm_compute in Ht; inversion Hb; inversion Ht; auto. }
  destruct Hty as [-> Hts].
  assert (Hnb : nbytes = rows * cols * type_size).
  { unfold ggml_nbytes, getitem in Enb. rewrite Hw in Enb. cbn [mbind result_bind] in Enb.
    rewrite Ht, Hb in Enb. cbn [mbind result_bind floordiv] in Enb.
    change (1 =? 0) with false in Enb. cbv iota in Enb.
    inversion Enb. unfold ggml_nelements. cbn [fold_left].
    rewrite Z.div_1_r. lia. }
  subst nbytes.
  assert (Hsz : 0 <= rows * cols * type_size) by (destruct Hts; subst; nia).
  assert (Hb0 : 0 <= tell f1 + Z.of_nat pad) by (unfold tell; lia).
  rewrite place_data_rows in Epl; [|done|lia|rewrite Z.div_1_r; nia].
  rewrite Z.div_1_r in Epl. inversion Epl as [E3].
  exists (tell f1 + Z.of_nat pad), type_size, data, (write (replicate pad x00) f1).
  split; [exact Hts|]. split; [exact Hmod|]. split.
  { rewrite Hcur. exact Enb. }
  split.
  { cbn [contents]. unfold write. cbn [contents pos]. f_equal. f_equal. lia. }
  split; [unfold tell at 1; cbn [pos]; lia|].
  unfold tell at 1. cbn [pos]. rewrite Z2Nat.id by lia. nia.
Qed.

(** ** Vocabulary: properties *)

Lemma hex_digit_range (c d : Z) :
  hex_digit c = Some d ->
  (48 <= c <= 57 \/ 97 <= c <= 102 \/ 65 <= c <= 70) /\ 0 <= d < 16.
Proof.
  unfold hex_digit.
  destruct (Z.leb_spec 48 c); destruct (Z.leb_spec c 57); cbn [andb];
  destruct (Z.leb_spec 97 c); destruct (Z.leb_spec c 102); cbn [andb];
  destruct (Z.leb_spec 65 c); destruct (Z.leb_spec c 70); cbn [andb];
  intros E; inversion E; lia.
Qed.

Lemma int16_hex_pair (h l dh dl : Z) :
  hex_digit h = Some dh -> hex_digit l = Some dl ->
  int16 [h; l] = Ok (16 * dh + dl) /\ 0 <= 16 * dh + dl < 256.
Proof.
  intros Hh Hl.
  destruct (hex_digit_range _ _ Hh) as [Rh Dh].
  destruct (hex_digit_range _ _ Hl) as [Rl Dl].
  split; [|lia].
  assert (Sh : is_space h = false).
  { unfold is_space. destruct (Z.eqb_spec h 32); [lia|].
    destruct (Z.leb_spec 9 h); destruct (Z.leb_spec h 13); cbn; lia || reflexivity. }
  unfold int16. cbn [lstrip]. rewrite Sh.
  destruct (Z.eqb_spec h 43); [lia|]. destruct (Z.eqb_spec h 45); [lia|].
  destruct (Z.eqb_spec l 120); [lia|]. destruct (Z.eqb_spec l 88); [lia|].
  rewrite andb_false_r.
  destruct (Z.eqb_spec h 95); [lia|].
  cbn [scan_hex]. destruct (Z.eqb_spec h 95); [lia|]. rewrite Hh.
  destruct (Z.eqb_spec l 95); [lia|]. rewrite Hl.
  cbn [lstrip]. f_equal. lia.
Qed.

Lemma elem_of_range (i n : Z) : i ∈ range n <-> 0 <= i < n.
Proof.
  unfold range. rewrite list_elem_of_fmap. split.
  - intros (k & -> & Hk). apply elem_of_seq in Hk. lia.
  - intros H. exists (Z.to_nat i). split; [lia|]. apply elem_of_seq. lia.
Qed.


Lemma write_token_raises (tok : tokenizer pyfloat) (i : Z) (e : exn) (f : file) :
  token_text tok i = Raise e -> write_token tok i f = (f, Raise e).
Proof. intros E. unfold write_token. rewrite bind_run. unfold lift. by rewrite E. Qed.




Lemma write_header_inv (hparams : gmap string Z) (ftype : Z) (f f1 : file) :
  write_header hparams ftype f = (f1, Ok tt) ->
  exists n_vocab dim multiple_of n_heads n_layers fields,
    hparams !! "vocab_size" = Some n_vocab /\
    hparams !! "dim" = Some dim /\
    hparams !! "multiple_of" = Some multiple_of /\
    hparams !! "n_heads" = Some n_heads /\
    hparams !! "n_layers" = Some n_layers /\
    n_heads <> 0 /\
    mapM (pack_i native)
      [0x67676a74; 1; n_vocab; dim; multiple_of; n_heads; n_layers;
       dim / n_heads; ftype] = Ok fields /\
    f1 = write (concat fields) f.
Proof.
  intros H.
  destruct (hparams !! "vocab_size") as [n_vocab|] eqn:Hv.
  2:{ unfold write_header, getitem in H. cbn [mapM] in H. rewrite Hv in H. discriminate. }
  destruct (hparams !! "dim") as [dim|] eqn:Hd.
  2:{ unfold write_header, getitem in H. cbn [mapM] in H. rewrite Hv, Hd in H. discriminate. }
  destruct (hparams !! "multiple_of") as [multiple_of|] eqn:Hm.
  2:{ unfold write_header, getitem in H. cbn [mapM] in H. rewrite Hv, Hd, Hm in H. discriminate. }
  destruct (hparams !! "n_heads") as [n_heads|] eqn:Hh.
  2:{ unfold write_header, getitem in H. cbn [mapM] in H. rewrite Hv, Hd, Hm, Hh in H. discriminate. }
  destruct (hparams !! "n_layers") as [n_layers|] eqn:Hl.
  2:{ unfold write_header, getitem in H. cbn [mapM] in H. rewrite Hv, Hd, Hm, Hh, Hl in H. discriminate. }
  destruct (decide (n_heads = 0)) as [->|Hnz].
  { unfold write_header, getitem in H. cbn [mapM] in H. rewrite Hv, Hd, Hm, Hh, Hl in H.
    discriminate. }
  rewrite (write_header_values _ _ _ _ _ _ _ _ Hv Hd Hm Hh Hl Hnz) in H.
  exists n_vocab, dim, multiple_of, n_heads, n_layers.
  set (values := [0x67676a74; 1; n_vocab; dim; multiple_of; n_heads; n_layers;
                  dim / n_heads; ftype]) in *.
  rewrite bind_run in H. unfold lift in H.
  destruct (pack_ints native values) as [b|e] eqn:Ep; [|discriminate].
  apply pack_ints_inv in Ep as (fields & Em & ->).
  unfold fwrite in H. inversion H.
  exists fields. repeat split; done.
Qed.

Lemma mapM_pack_i_fields (bo : byteorder) (values : list Z) (fields : list bytes) :
  mapM (pack_i bo) values = Ok fields ->
  Forall2 (fun b v => pack_i bo v = Ok b /\ unpack_i bo b = v) fields values.
Proof.
  revert fields. induction values as [|v vs IH]; intros fields; cbn.
  - intros E. inversion E. constructor.
  - destruct (pack_i bo v) as [b|e] eqn:Eb; cbn; [|discriminate].
    destruct (mapM (pack_i bo) vs) as [bs|e]; cbn; [|discriminate].
    intros E. inversion E. constructor; [|by apply IH].
    split; [done|by eapply unpack_pack_i].
Qed.

Lemma write_token_ok (tok : tokenizer pyfloat) (i : Z) (f f' : file) :
  write_token tok i f = (f', Ok tt) ->
  exists record, vocab_record tok record i /\ f' = write record f.
Proof.
  unfold write_token. rewrite bind_run. unfold lift at 1.
  destruct (token_text tok i) as [text|] eqn:Et; [|discriminate].
  rewrite bind_run. unfold lift at 1.
  destruct (pack_i native (len text)) as [n|] eqn:En; [|discriminate].
  rewrite bind_fwrite, bind_fwrite, bind_run. unfold lift at 1.
  destruct (pack_f (get_score tok i)) as [score|] eqn:Esc; [|discriminate].
  unfold fwrite. intros E. inversion E.
  exists (n ++ text ++ score). split.
  - exists text, n, score. repeat split; done.
  - by rewrite !write_write, <- ?app_assoc.
Qed.

Lemma for_each_write_token (tok : tokenizer pyfloat) (xs : list Z) (f f' : file) :
  for_each xs (write_token tok) f = (f', Ok tt) ->
  exists records,
    Forall2 (vocab_record tok) records xs /\ f' = write (concat records) f.
Proof.
  revert f. induction xs as [|i xs IH]; intros f; cbn [for_each].
  - intros E. inversion E. exists []. split; [constructor|]. cbn. by rewrite write_nil.
  - rewrite bind_run.
    destruct (write_token tok i f) as [f1 [[]|]] eqn:Ew; [|discriminate].
    apply write_token_ok in Ew as (record & Hr & ->).
    intros E. apply IH in E as (records & Hrs & ->).
    exists (record :: records). split; [by constructor|].
    cbn. by rewrite write_write.
Qed.

Lemma contents_write_empty (bs : bytes) : contents (write bs empty_file) = bs.
Proof.
  destruct bs as [|b bs]; [reflexivity|].
  unfold write, empty_file. cbn [contents pos write_at].
  cbn. by rewrite app_nil_r.
Qed.

(** C10. The [vocab_size] that reaches the header is the one the tokenizer
    reports, whatever [params.json] holds under that key; a header that is
    written carries it as a 4-byte field; and a vocabulary section that is
    written to the end holds exactly that many records, one per index in
    order.  A vocabulary-only run that succeeds leaves these two parts, and
    nothing else, in the file. *)
Theorem vocab_count_consistent
  (ftype : Z) (params : gmap string Z) (tok : tokenizer pyfloat) (f f1 f2 : file) :
  0 <= vocab_size tok ->
  write_header (load_hparams_and_tokenizer params tok).1 ftype f = (f1, Ok tt) ->
  write_tokens (load_hparams_and_tokenizer params tok).2 f1 = (f2, Ok tt) ->
  (load_hparams_and_tokenizer params tok).1 !! "vocab_size" = Some (vocab_size tok) /\
  exists fields records,
    f1 = write (concat fields) f /\
    length fields = 9%nat /\
    Forall (fun b => length b = 4%nat) fields /\
    (exists b, fields !! 2%nat = Some b /\
               pack_i native (vocab_size tok) = Ok b /\
               unpack_i native b = vocab_size tok) /\
    f2 = write (concat records) f1 /\
    len records = vocab_size tok /\
    Forall2 (vocab_record tok) records (range (vocab_size tok)) /\
    (forall torch_load out,
       f = empty_file ->
       main ftype true params tok torch_load = (Some out, Ok tt) ->
       out = concat fields ++ concat records).
Proof.
  intros Hn Hh Ht. cbn [load_hparams_and_tokenizer fst snd] in *.
  split; [apply lookup_insert_eq|].
  pose proof Hh as Hh0.
  apply write_header_inv in Hh
    as (n_vocab & dim & multiple_of & n_heads & n_layers & fields
        & Hv & _ & _ & _ & _ & _ & Em & ->).
  rewrite lookup_insert_eq in Hv. inversion Hv; subst n_vocab.
  pose proof (mapM_pack_i_fields _ _ _ Em) as F2.
  pose proof Ht as Ht0.
  unfold write_tokens in Ht. apply for_each_write_token in Ht as (records & Hr & ->).
  exists fields, records.
  assert (L9 : length fields = 9%nat) by exact (Forall2_length _ _ _ F2).
  split; [done|]. split; [done|]. split.
  { clear -F2. induction F2 as [|b v bs vs [Hb _] _ IH]; constructor;
      [by eapply pack_i_length|done]. }
  split.
  { destruct fields as [|b0 [|b1 [|b2 fields]]]; try discriminate.
    exists b2. split; [done|].
    inversion F2 as [|? ? ? ? _ F2']; subst.
    inversion F2' as [|? ? ? ? _ F2'']; subst.
    inversion F2'' as [|? ? ? ? [Hb Hu] _]; subst. done. }
  split; [done|]. split.
  { unfold len. rewrite (Forall2_length _ _ _ Hr). unfold range.
    rewrite length_map, length_seq. lia. }
  split; [done|].
  intros torch_load out -> Hmain. unfold main in Hmain.
  destruct (negb _); [discriminate|].
  cbn [load_hparams_and_tokenizer] in Hmain.
  rewrite bind_run, Hh0, Ht0 in Hmain.
  rewrite write_write, contents_write_empty in Hmain. by inversion Hmain.
Qed.

(** ** Further properties of the converter *)

(** *** Strings *)

Lemma startswith_app (p r : list Z) : startswith p (p ++ r) = true.
Proof. induction p as [|a p IH]; [by destruct r|]. cbn. by rewrite Z.eqb_refl, IH. Qed.

Lemma startswith_inv (p s : list Z) :
  startswith p s = true -> exists r, s = p ++ r.
Proof.
  revert s. induction p as [|a p IH]; intros s; [by exists s|].
  destruct s as [|b s]; cbn; [discriminate|].
  destruct (Z.eqb_spec a b) as [->|]; cbn; [|discriminate].
  intros H. destruct (IH s H) as [r ->]. by exists r.
Qed.

Lemma endswith_iff (p s : list Z) :
  endswith p s = true <-> exists a, s = a ++ p.
Proof.
  unfold endswith. split.
  - intros H. apply startswith_inv in H as [r Hr].
    exists (rev r). apply (f_equal (@rev Z)) in Hr.
    by rewrite rev_involutive, rev_app_distr, rev_involutive in Hr.
  - intros [a ->]. rewrite rev_app_distr. apply startswith_app.
Qed.

(** *** Loops *)

Lemma for_each_app {A} (xs ys : list A) (body : A -> io unit) (f : file) :
  for_each (xs ++ ys) body f =
  match for_each xs body f with
  | (f', Ok _) => for_each ys body f'
  | (f', Raise e) => (f', Raise e)
  end.
Proof.
  revert f. induction xs as [|x xs IH]; intros f; [reflexivity|].
  cbn [app for_each]. rewrite !bind_run.
  destruct (body x f) as [f1 [[]|e]]; [apply IH|reflexivity].
Qed.

(** *** Tensors left out and tensors refused *)

(** X1. A tensor whose name ends in [freqs] is passed over: nothing is
    written and the cursor stays; a pass over a model is the pass over the
    model without these tensors. *)
Theorem freqs_tensors_skipped
  (ftype part_id n_parts : Z) (m : list (list Z * tensor)) (f : file) :
  (forall prefix datao,
     write_variable ftype part_id n_parts (prefix ++ pystr_of "freqs") datao f
     = (f, Ok tt)) /\
  process_and_write_variables m ftype part_id n_parts f =
  process_and_write_variables
    (List.filter (fun '(name, _) => negb (endswith (pystr_of "freqs") name)) m)
    ftype part_id n_parts f.
Proof.
  split.
  - intros prefix datao. unfold write_variable.
    replace (endswith (pystr_of "freqs") (prefix ++ pystr_of "freqs")) with true;
      [reflexivity|].
    symmetry. apply endswith_iff. by exists prefix.
  - unfold process_and_write_variables. revert f.
    induction m as [|[name datao] m IH]; intros f; [reflexivity|].
    cbn [List.filter for_each].
    destruct (endswith (pystr_of "freqs") name) eqn:E; cbn [negb].
    + rewrite bind_run. unfold write_variable at 1. rewrite E. apply IH.
    + cbn [for_each]. rewrite !bind_run.
      destruct (write_variable _ _ _ _ _ f) as [f1 [[]|e]]; [apply IH|reflexivity].
Qed.

(** X2. A tensor that numpy accepts and whose shape, once the axes of
    length one are dropped, has neither one nor two axes fails the rank
    assertion before a byte of its record is written; the pass ends there,
    with the records of the tensors before it in the file and none of those
    after it. *)
Theorem unsupported_rank_aborts
  (ftype part_id n_parts : Z) (before after : list (list Z * tensor))
  (name : list Z) (datao : tensor) (f f1 : file) :
  endswith (pystr_of "freqs") name = false ->
  t_dtype datao <> bfloat16 ->
  len (List.filter (fun d => negb (d =? 1)) (t_shape datao)) <> 1 ->
  len (List.filter (fun d => negb (d =? 1)) (t_shape datao)) <> 2 ->
  process_and_write_variables before ftype part_id n_parts f = (f1, Ok tt) ->
  write_variable ftype part_id n_parts name datao f1 = (f1, Raise AssertionError) /\
  process_and_write_variables (before ++ (name, datao) :: after)
    ftype part_id n_parts f = (f1, Raise AssertionError).
Proof.
  intros Hs Hd H1 H2 Hb.
  assert (Hw : write_variable ftype part_id n_parts name datao f1
               = (f1, Raise AssertionError)).
  { unfold write_variable. rewrite Hs, bind_run. unfold lift at 1, numpy.
    destruct (t_dtype datao) eqn:Ed; try done; cbn [fmap result_fmap squeeze shape];
      unfold in_1_2;
      destruct (Z.eqb_spec (len (List.filter (fun d => negb (d =? 1)) (t_shape datao))) 1);
      try done;
      destruct (Z.eqb_spec (len (List.filter (fun d => negb (d =? 1)) (t_shape datao))) 2);
      try done. }
  split; [exact Hw|].
  unfold process_and_write_variables in *. rewrite for_each_app, Hb.
  cbn [for_each]. rewrite bind_run, Hw. reflexivity.
Qed.

(** *** The header, written whole or not at all *)

Lemma pack_i_raise (bo : byteorder) (v : Z) (e : exn) :
  pack_i bo v = Raise e -> e = StructError.
Proof. unfold pack_i. destruct (_ && _); intros E; by inversion E. Qed.

Lemma pack_ints_raise (bo : byteorder) (values : list Z) (e : exn) :
  pack_ints bo values = Raise e -> e = StructError.
Proof.
  induction values as [|v vs IH]; cbn; [discriminate|].
  destruct (pack_i bo v) as [b|e1] eqn:Eb; cbn.
  - destruct (pack_ints bo vs) as [bs|e2]; cbn; [discriminate|].
    intros E. inversion E; subst. by apply IH.
  - intros E. inversion E; subst. by eapply pack_i_raise.
Qed.

Lemma pack_ints_length (bo : byteorder) (values : list Z) (b : list byte) :
  pack_ints bo values = Ok b -> length b = (4 * length values)%nat.
Proof.
  revert b. induction values as [|v vs IH]; intros b; cbn.
  - intros E. by inversion E.
  - destruct (pack_i bo v) as [b1|] eqn:Eb; cbn; [|discriminate].
    destruct (pack_ints bo vs) as [bs|]; cbn; [|discriminate].
    intros E. inversion E. rewrite length_app, (pack_i_length _ _ _ Eb), (IH bs eq_refl).
    lia.
Qed.

Lemma write_header_missing_key (hparams : gmap string Z) (ftype : Z) (f : file) :
  hparams !! "vocab_size" = None \/ hparams !! "dim" = None \/
  hparams !! "multiple_of" = None \/ hparams !! "n_heads" = None \/
  hparams !! "n_layers" = None ->
  write_header hparams ftype f = (f, Raise KeyError).
Proof.
  intros H. unfold write_header, getitem. cbn [mapM].
  destruct (hparams !! "vocab_size"); [|reflexivity].
  destruct (hparams !! "dim"); [|reflexivity].
  destruct (hparams !! "multiple_of"); [|reflexivity].
  destruct (hparams !! "n_heads"); [|reflexivity].
  destruct (hparams !! "n_layers"); [|reflexivity].
  destruct H as [H|[H|[H|[H|H]]]]; discriminate H.
Qed.

Lemma write_header_outcome (hparams : gmap string Z) (ftype : Z) (f : file) :
  (exists b, write_header hparams ftype f = (write b f, Ok tt) /\ length b = 36%nat) \/
  (exists e, write_header hparams ftype f = (f, Raise e) /\
             (e = KeyError \/ e = ZeroDivisionError \/ e = StructError)).
Proof.
  destruct (hparams !! "vocab_size") as [n_vocab|] eqn:Hv;
    [|right; exists KeyError; split; [apply write_header_missing_key|]; auto].
  destruct (hparams !! "dim") as [dim|] eqn:Hd;
    [|right; exists KeyError; split; [apply write_header_missing_key|]; auto].
  destruct (hparams !! "multiple_of") as [multiple_of|] eqn:Hm;
    [|right; exists KeyError; split; [apply write_header_missing_key|]; auto].
  destruct (hparams !! "n_heads") as [n_heads|] eqn:Hh;
    [|right; exists KeyError; split; [apply write_header_missing_key|]; auto 6].
  destruct (hparams !! "n_layers") as [n_layers|] eqn:Hl;
    [|right; exists KeyError; split; [apply write_header_missing_key|]; auto 6].
  destruct (decide (n_heads = 0)) as [->|Hnz].
  { right. exists ZeroDivisionError. split; [|auto].
    unfold write_header, getitem. cbn [mapM]. rewrite Hv, Hd, Hm, Hh, Hl. reflexivity. }
  rewrite (write_header_values _ _ _ _ _ _ _ _ Hv Hd Hm Hh Hl Hnz), bind_run.
  unfold lift.
  destruct (pack_ints native _) as [b|e] eqn:Ep.
  - left. exists b. split; [reflexivity|]. by apply pack_ints_length in Ep.
  - right. exists e. split; [reflexivity|]. apply pack_ints_raise in Ep. auto.
Qed.

(** X3. [write_header] writes the whole 36-byte header or nothing: on any
    failure the file and the cursor are as before.  A missing key among the
    five raises [KeyError]; with all keys present, [n_heads = 0] raises
    [ZeroDivisionError]; the only other failure is [struct.error], for a
    value outside the C int range. *)
Theorem write_header_all_or_nothing
  (hparams : gmap string Z) (ftype : Z) (f : file) :
  ((exists b, write_header hparams ftype f = (write b f, Ok tt) /\
              length b = 36%nat /\ tell (write b f) = tell f + 36) \/
   (exists e, write_header hparams ftype f = (f, Raise e) /\
              (e = KeyError \/ e = ZeroDivisionError \/ e = StructError))) /\
  (hparams !! "vocab_size" = None \/ hparams !! "dim" = None \/
   hparams !! "multiple_of" = None \/ hparams !! "n_heads" = None \/
   hparams !! "n_layers" = None ->
   write_header hparams ftype f = (f, Raise KeyError)) /\
  (is_Some (hparams !! "vocab_size") -> is_Some (hparams !! "dim") ->
   is_Some (hparams !! "multiple_of") -> is_Some (hparams !! "n_layers") ->
   hparams !! "n_heads" = Some 0 ->
   write_header hparams ftype f = (f, Raise ZeroDivisionError)).
Proof.
  split; [|split].
  - destruct (write_header_outcome hparams ftype f) as [(b & E & L)|H]; [left|by right].
    exists b. split; [exact E|]. split; [exact L|].
    rewrite tell_write. unfold len. rewrite L. reflexivity.
  - apply write_header_missing_key.
  - intros [v Hv] [d Hd] [m Hm] [l Hl] Hh.
    unfold write_header, getitem. cbn [mapM]. rewrite Hv, Hd, Hm, Hh, Hl. reflexivity.
Qed.

(** X4. When the header cannot be written, a run that got as far as opening
    the output file leaves it on disk, empty: always in vocabulary-only
    mode, and in conversion mode once the shard count is known. *)
Theorem failed_header_leaves_empty_file
  (ftype : Z) (params : gmap string Z) (tok : tokenizer pyfloat)
  (torch_load : Z -> result (list (list Z * tensor))) (fout : file) (e : exn) :
  ftype = 0 \/ ftype = 1 \/ ftype = 2 ->
  write_header (load_hparams_and_tokenizer params tok).1 ftype empty_file
    = (fout, Raise e) ->
  main ftype true params tok torch_load = (Some [], Raise e) /\
  (forall dim n_parts,
     params !! "dim" = Some dim -> get_n_parts dim = Ok n_parts ->
     main ftype false params tok torch_load = (Some [], Raise e)).
Proof.
  intros Hf Hh.
  assert (Hun : fout = empty_file).
  { destruct (write_header_outcome (load_hparams_and_tokenizer params tok).1 ftype
                empty_file) as [(b & E & _)|(e' & E & _)];
      rewrite E in Hh; by inversion Hh. }
  subst fout. cbn [load_hparams_and_tokenizer fst] in Hh.
  assert (Hc : negb ((ftype =? 0) || (ftype =? 1) || (ftype =? 2)) = false)
    by (destruct Hf as [->|[->| ->]]; reflexivity).
  split.
  - unfold main. rewrite Hc. cbn [load_hparams_and_tokenizer].
    rewrite bind_run, Hh. reflexivity.
  - intros dim n_parts Hd Hn. unfold main. rewrite Hc.
    pose proof (hparams_dim params tok) as Hd'.
    cbn [load_hparams_and_tokenizer fst] in Hd'. cbn [load_hparams_and_tokenizer].
    unfold getitem. rewrite Hd', Hd. cbn [mbind result_bind]. rewrite Hn.
    rewrite bind_run, Hh. reflexivity.
Qed.

(** *** The vocabulary section *)

Lemma write_token_run (tok : tokenizer pyfloat) (i : Z) (record : list byte) (f : file) :
  vocab_record tok record i -> write_token tok i f = (write record f, Ok tt).
Proof.
  intros (text & n & score & Et & En & Es & ->).
  unfold write_token. rewrite bind_run. unfold lift at 1. rewrite Et.
  rewrite bind_run. unfold lift at 1. rewrite En.
  rewrite bind_fwrite, bind_fwrite, bind_run. unfold lift at 1. rewrite Es.
  unfold fwrite. by rewrite !write_write, <- ?app_assoc.
Qed.

Lemma for_each_write_token_run
  (tok : tokenizer pyfloat) (xs : list Z) (records : list (list byte)) (f : file) :
  Forall2 (vocab_record tok) records xs ->
  for_each xs (write_token tok) f = (write (concat records) f, Ok tt).
Proof.
  intros H. revert f. induction H as [|record i records xs Hr _ IH]; intros f.
  - cbn. by rewrite write_nil.
  - cbn [for_each concat]. rewrite bind_run, (write_token_run _ _ _ _ Hr), IH.
    by rewrite write_write.
Qed.

Lemma seq_from (b s : nat) :
  map Z.of_nat (seq s b) = map (fun j => Z.of_nat s + j) (map Z.of_nat (seq 0 b)).
Proof.
  revert s. induction b as [|b IH]; intros s; [reflexivity|].
  cbn [seq map]. f_equal; [lia|].
  rewrite (IH (S s)), (IH 1%nat), !map_map. apply map_ext. intros k. lia.
Qed.

Lemma range_split (i n : Z) :
  0 <= i < n ->
  range n = range i ++ i :: map (fun j => i + 1 + j) (range (n - i - 1)).
Proof.
  intros H. unfold range.
  replace (Z.to_nat n) with (Z.to_nat i + S (Z.to_nat (n - i - 1)))%nat by lia.
  rewrite seq_app, map_app. f_equal. cbn [seq map Nat.add]. f_equal; [lia|].
  rewrite seq_from. apply map_ext. intros k. lia.
Qed.

(** X8. When the text of entry [i] cannot be formed and the entries before
    it can be written, [write_tokens] stops at [i] with that exception: the
    file holds the [i] records of the earlier entries, nothing of entry [i]
    and nothing of the later ones. *)
Theorem write_tokens_stops_at_first_failure
  (tok : tokenizer pyfloat) (i : Z) (e : exn) (records : list (list byte)) (f : file) :
  0 <= i < vocab_size tok ->
  Forall2 (vocab_record tok) records (range i) ->
  token_text tok i = Raise e ->
  write_tokens tok f = (write (concat records) f, Raise e) /\
  len records = i.
Proof.
  intros Hi Hr He. split.
  - unfold write_tokens. rewrite (range_split i (vocab_size tok) Hi), for_each_app.
    rewrite (for_each_write_token_run _ _ _ _ Hr). cbn [for_each].
    rewrite bind_run, (write_token_raises _ _ _ _ He). reflexivity.
  - unfold len. rewrite (Forall2_length _ _ _ Hr). unfold range.
    rewrite length_map, length_seq. lia.
Qed.

Lemma read_vocab_records
  (tok : tokenizer pyfloat) (xs : list Z) (records : list (list byte)) (tl : list byte) :
  (forall x b, pack_f x = Ok b -> length b = 4%nat) ->
  Forall2 (vocab_record tok) records xs ->
  exists entries,
    read_vocab native (length xs) (concat records ++ tl) = Some (entries, tl) /\
    Forall2 (fun entry i =>
               token_text tok i = Ok entry.1 /\
               pack_f (get_score tok i) = Ok entry.2) entries xs.
Proof.
  intros Hf H. induction H as [|record i records xs Hr _ (entries & IH & HF)].
  - exists []. split; [reflexivity|constructor].
  - destruct Hr as (text & n & score & Et & En & Es & ->).
    exists ((text, score) :: entries). split; [|constructor; [done|exact HF]].
    pose proof (pack_i_length _ _ _ En) as Ln.
    pose proof (Hf _ _ Es) as Ls.
    pose proof (unpack_pack_i _ _ _ En) as Hu.
    destruct (pack_i_inv _ _ _ En) as [[_ _] _].
    cbn [length concat]. rewrite <- !app_assoc.
    set (tail := concat records ++ tl) in *.
    cbn [read_vocab].
    rewrite (take_app_length' n _ 4 (eq_sym Ln)), Hu.
    rewrite (drop_app_length' n _ 4 (eq_sym Ln)).
    assert (Hk : Z.to_nat (len text) = length text) by (unfold len; lia).
    rewrite Hk.
    replace ((length (n ++ text ++ score ++ tail) <? 4)%nat) with false
      by (symmetry; apply Nat.ltb_ge; rewrite length_app; lia).
    replace (len text <? 0) with false by (symmetry; apply Z.ltb_ge; unfold len; lia).
    replace ((length (text ++ score ++ tail) <? length text + 4)%nat) with false
      by (symmetry; apply Nat.ltb_ge; rewrite !length_app; lia).
    cbn [orb].
    replace (drop (length text + 4) (text ++ score ++ tail)) with tail.
    2:{ rewrite <- drop_drop, drop_app_length.
        by rewrite (drop_app_length' score _ 4 (eq_sym Ls)). }
    rewrite IH, take_app_length, drop_app_length.
    by rewrite (take_app_length' score _ 4 (eq_sym Ls)).
Qed.

Lemma write_at_end (bs : list byte) (f : file) :
  pos f = length (contents f) ->
  write bs f = mkfile (contents f ++ bs) (length (contents f ++ bs)).
Proof.
  destruct f as [c p]. cbn [pos contents]. intros ->.
  unfold write. cbn [pos contents]. rewrite length_app. f_equal.
  destruct bs as [|b bs]; [by rewrite app_nil_r|].
  rewrite write_at_nonempty by done.
  rewrite firstn_all, Nat.sub_diag, drop_ge by lia.
  cbn [replicate app]. by rewrite app_nil_r.
Qed.

(** X5. The vocabulary section reads back.  When [write_tokens] succeeds
    with the cursor at the end of the file (and a packed float is four bytes
    long), reading [vocab_size] records from what it appended, followed by
    any further bytes, gives for each index the text [token_text] formed and
    its score field, and leaves exactly the further bytes. *)
Theorem vocabulary_reads_back
  (tok : tokenizer pyfloat) (f fout : file) (tl : list byte) :
  (forall x b, pack_f x = Ok b -> length b = 4%nat) ->
  pos f = length (contents f) ->
  write_tokens tok f = (fout, Ok tt) ->
  take (pos f) (contents fout) = contents f /\
  pos fout = length (contents fout) /\
  exists entries,
    read_vocab native (Z.to_nat (vocab_size tok))
      (drop (pos f) (contents fout) ++ tl) = Some (entries, tl) /\
    Forall2 (fun entry i =>
               token_text tok i = Ok entry.1 /\
               pack_f (get_score tok i) = Ok entry.2)
            entries (range (vocab_size tok)).
Proof.
  intros Hf Hend Hw. unfold write_tokens in Hw.
  apply for_each_write_token in Hw as (records & Hr & ->).
  rewrite (write_at_end _ _ Hend). cbn [contents pos]. rewrite Hend.
  rewrite take_app_length, drop_app_length.
  split; [reflexivity|]. split; [reflexivity|].
  destruct (read_vocab_records tok _ records tl Hf Hr) as (entries & E & HF).
  exists entries. split; [|exact HF].
  rewrite <- E. f_equal. unfold range. by rewrite length_map, length_seq.
Qed.

Lemma hex_digit_hex_char (d : Z) : 0 <= d < 16 -> hex_digit (hex_char d) = Some d.
Proof.
  intros H. unfold hex_char, hex_digit.
  destruct (Z.ltb_spec d 10).
  - destruct (Z.leb_spec 48 (48 + d)); [|lia].
    destruct (Z.leb_spec (48 + d) 57); [|lia]. cbn. f_equal. lia.
  - destruct (Z.leb_spec 48 (55 + d)); [|lia].
    destruct (Z.leb_spec (55 + d) 57); [lia|]. cbn [andb].
    destruct (Z.leb_spec 97 (55 + d)); [lia|]. cbn [andb].
    destruct (Z.leb_spec 65 (55 + d)); [|lia].
    destruct (Z.leb_spec (55 + d) 70); [|lia]. cbn. f_equal. lia.
Qed.

(** X6. Byte entries round-trip: for every byte value [v], a byte entry
    whose piece is SentencePiece's [<0xHH>] for [v] is written as the one
    byte [v]. *)
Theorem byte_pieces_round_trip (tok : tokenizer pyfloat) (i v : Z) :
  0 <= v < 256 ->
  is_unknown tok i = false -> is_control tok i = false -> is_byte tok i = true ->
  id_to_piece tok i = byte_piece v ->
  token_text tok i = Ok [byte_of_Z v] /\ Z_of_byte (byte_of_Z v) = v.
Proof.
  intros Hv Hu Hc Hb Hp. split.
  - unfold token_text. rewrite Hu, Hc, Hb, Hp.
    change (byte_piece v) with [60; 48; 120; hex_char (v / 16); hex_char (v mod 16); 62].
    change (len [60; 48; 120; hex_char (v / 16); hex_char (v mod 16); 62] =? 6) with true.
    cbn [negb].
    change (slice 3 (-1) [60; 48; 120; hex_char (v / 16); hex_char (v mod 16); 62])
      with [hex_char (v / 16); hex_char (v mod 16)].
    pose proof (Z.div_mod v 16 ltac:(lia)) as E.
    pose proof (Z.mod_pos_bound v 16 ltac:(lia)) as B.
    assert (Bq : 0 <= v / 16 < 16)
      by (split; [apply Z.div_pos; lia|apply Z.div_lt_upper_bound; lia]).
    destruct (int16_hex_pair _ _ _ _ (hex_digit_hex_char _ Bq) (hex_digit_hex_char _ B))
      as [-> _].
    cbn [mbind result_bind]. replace (16 * (v / 16) + v mod 16) with v by lia.
    unfold pack_B. destruct (Z.leb_spec 0 v); [|lia].
    destruct (Z.ltb_spec v 256); [|lia]. reflexivity.
  - rewrite Z_of_byte_of_Z. apply Z.mod_small. lia.
Qed.

Lemma encode_ascii (s : list Z) :
  Forall (fun c => 0 <= c < 128) s -> encode s = Ok (map byte_of_Z s).
Proof.
  induction 1 as [|c s Hc _ IH]; [reflexivity|].
  cbn [encode map]. rewrite IH. unfold utf8_char.
  destruct (Z.ltb_spec c 0); [lia|]. destruct (Z.ltb_spec c 128); [|lia].
  reflexivity.
Qed.

(** X7. An ordinary entry (not unknown, control or byte) whose piece is
    made of ASCII characters and word-boundary markers U+2581 is written
    character by character: each ASCII character as its own byte, each
    marker as one blank; the text is as long as the piece. *)
Theorem ordinary_piece_text (tok : tokenizer pyfloat) (i : Z) :
  is_unknown tok i = false -> is_control tok i = false -> is_byte tok i = false ->
  Forall (fun c => 0 <= c < 128 \/ c = 0x2581) (id_to_piece tok i) ->
  token_text tok i =
    Ok (map (fun c => if c =? 0x2581 then x20 else byte_of_Z c) (id_to_piece tok i)) /\
  len (map (fun c => if c =? 0x2581 then x20 else byte_of_Z c) (id_to_piece tok i))
    = len (id_to_piece tok i).
Proof.
  intros Hu Hc Hb Hp. split; [|unfold len; by rewrite length_map].
  unfold token_text. rewrite Hu, Hc, Hb.
  rewrite encode_ascii.
  - f_equal. unfold replace_char. rewrite map_map. apply map_ext.
    intros c. destruct (Z.eqb_spec c 9601); reflexivity.
  - unfold replace_char. apply Forall_map. eapply Forall_impl; [exact Hp|].
    intros c Hc'. cbv beta in Hc'. destruct (Z.eqb_spec c 9601); lia.
Qed.

(** *** Sizes *)

Lemma fold_left_mul (l : list Z) (a : Z) :
  fold_left (fun r i => r * i) l a = a * fold_left (fun r i => r * i) l 1.
Proof.
  revert a. induction l as [|x l IH]; intros a; cbn [fold_left]; [lia|].
  rewrite (IH (a * x)), (IH (1 * x)). lia.
Qed.

Lemma ggml_nelements_cons (x : Z) (l : list Z) :
  ggml_nelements (x :: l) = x * ggml_nelements l.
Proof. unfold ggml_nelements. cbn [fold_left]. rewrite fold_left_mul. lia. Qed.

Lemma ggml_nelements_app (a b : list Z) :
  ggml_nelements (a ++ b) = ggml_nelements a * ggml_nelements b.
Proof.
  induction a as [|x a IH]; [change (ggml_nelements []) with 1; cbn [app]; lia|].
  cbn [app]. rewrite !ggml_nelements_cons, IH. lia.
Qed.

Lemma ggml_nelements_rev (shape : list Z) :
  ggml_nelements (rev shape) = ggml_nelements shape.
Proof.
  induction shape as [|x l IH]; [reflexivity|].
  cbn [rev]. rewrite ggml_nelements_app, IH, !ggml_nelements_cons.
  change (ggml_nelements []) with 1. lia.
Qed.

Lemma WTYPES_unknown (ftype : Z) : ~ 0 <= ftype <= 3 -> WTYPES !! ftype = None.
Proof.
  intros H. unfold WTYPES. rewrite !lookup_insert_ne by lia. apply lookup_empty.
Qed.

(** X9. [ggml_nbytes] returns a size for the selectors 0 to 3 and raises
    [KeyError] for every other one; the size it returns for a shape is the
    size it returns for the reversed shape, the order in which a record
    header lists the dimensions. *)
Theorem ggml_nbytes_selectors (shape : list Z) (ftype : Z) :
  (0 <= ftype <= 3 -> exists x, ggml_nbytes shape ftype = Ok x) /\
  (~ 0 <= ftype <= 3 -> ggml_nbytes shape ftype = Raise KeyError) /\
  ggml_nbytes (rev shape) ftype = ggml_nbytes shape ftype.
Proof.
  split; [|split].
  - intros H.
    assert (ftype = 0 \/ ftype = 1 \/ ftype = 2 \/ ftype = 3) as [->|[->|[->| ->]]] by lia;
      eexists; unfold ggml_nbytes, getitem;
      [change (WTYPES !! 0) with (Some GGML_TYPE_F32)
      |change (WTYPES !! 1) with (Some GGML_TYPE_F16)
      |change (WTYPES !! 2) with (Some GGML_TYPE_Q4_0)
      |change (WTYPES !! 3) with (Some GGML_TYPE_Q4_1)];
      cbn [mbind result_bind]; reflexivity.
  - intros H. unfold ggml_nbytes, getitem. by rewrite (WTYPES_unknown _ H).
  - unfold ggml_nbytes. by rewrite ggml_nelements_rev.
Qed.

(** X10. For the two float encodings the body of an unsharded rank-2 tensor
    is [n] times the body of one of [n] equal parts, whether the rows or the
    columns are partitioned. *)
Theorem unsharded_body_is_n_parts (rows cols n ftype x : Z) :
  ftype = 0 \/ ftype = 1 ->
  ggml_nbytes [rows; cols] ftype = Ok x ->
  ggml_nbytes [n * rows; cols] ftype = Ok (n * x) /\
  ggml_nbytes [rows; n * cols] ftype = Ok (n * x).
Proof.
  intros Hf.
  assert (Hts : exists ts, forall shape,
            ggml_nbytes shape ftype = Ok (ggml_nelements shape * ts)).
  { destruct Hf as [-> | ->]; [exists 4|exists 2]; intros shape;
      unfold ggml_nbytes, getitem.
    - change (WTYPES !! 0) with (Some GGML_TYPE_F32). cbn [mbind result_bind].
      change (GGML_TYPE_SIZE !! GGML_TYPE_F32) with (Some 4).
      change (GGML_BLCK_SIZE !! GGML_TYPE_F32) with (Some 1).
      cbn [mbind result_bind]. unfold floordiv. change (1 =? 0) with false.
      cbv iota. by rewrite Z.div_1_r.
    - change (WTYPES !! 1) with (Some GGML_TYPE_F16). cbn [mbind result_bind].
      change (GGML_TYPE_SIZE !! GGML_TYPE_F16) with (Some 2).
      change (GGML_BLCK_SIZE !! GGML_TYPE_F16) with (Some 1).
      cbn [mbind result_bind]. unfold floordiv. change (1 =? 0) with false.
      cbv iota. by rewrite Z.div_1_r. }
  destruct Hts as [ts Hts]. rewrite !Hts, !ggml_nelements_cons.
  change (ggml_nelements []) with 1.
  intros E. inversion E. split; f_equal; lia.
Qed.

(** *** One record of a tensor *)

Lemma align_body_run (f : file) :
  align_body f =
  (write (replicate (Z.to_nat ((- tell f) mod 32)) x00) f,
   Ok (tell f + (- tell f) mod 32)).
Proof. unfold align_body. by rewrite align_loop_spec. Qed.

(** X11. A tensor that is not partitioned (rank 1, or a single shard),
    written by shard 0 with the cursor at the end of the file, appends one
    record: the three header integers (rank, name length, encoding tag),
    the dimensions in reverse order, the name, fewer than 32 zero bytes up
    to a multiple of 32, and the data.  When the data has the byte size
    [ggml_nbytes] computes, the cursor is again at the end of the file, so
    the next record follows at once. *)
Theorem unpartitioned_record_layout
  (ftype n_parts : Z) (name : list Z) (datao : tensor) (f f' : file) :
  endswith (pystr_of "freqs") name = false ->
  pos f = length (contents f) ->
  write_variable ftype 0 n_parts name datao f = (f', Ok tt) ->
  exists a data ftype_cur h dims sname pad nbytes,
    numpy datao = Ok a /\
    plan_encoding ftype (len (shape (squeeze a))) (squeeze a) = (data, ftype_cur) /\
    pack_ints native [len (shape (squeeze a)); len sname; ftype_cur] = Ok h /\
    mapM (pack_i native) (rev (shape (squeeze a))) = Ok dims /\
    encode name = Ok sname /\
    ggml_nbytes (shape (squeeze a)) ftype_cur = Ok nbytes /\
    (pad < 32)%nat /\
    (len (contents f ++ h ++ concat dims ++ sname) + Z.of_nat pad) mod 32 = 0 /\
    (n_parts = 1 \/ len (shape (squeeze a)) = 1 ->
     contents f' =
       contents f ++ h ++ concat dims ++ sname ++ replicate pad x00 ++ tobytes data /\
     (len (tobytes data) = nbytes -> pos f' = length (contents f'))).
Proof.
  intros Hs Hend H.
  destruct (write_variable_steps _ _ _ _ _ _ _ Hs H)
    as (a & data & ftype_cur & wtype & blck_size & type_size & sname & f1 & pad
        & f3 & nbytes & En & Hr & Hp & Hw & Hb & Ht & Es & Eh & Ea & Hpad & Hmod
        & Epl & Enb & Hpos & ->).
  apply write_record_header_spec in Eh as (h & dims & Eh & Lh & Ed & Ld & ->).
  exists a, data, ftype_cur, h, dims, sname, pad, nbytes.
  rewrite (write_at_end _ _ Hend) in *. cbn [contents pos] in *.
  set (c1 := contents f ++ h ++ concat dims ++ sname) in *.
  assert (Ht1 : tell (mkfile c1 (length c1)) = len c1) by reflexivity.
  rewrite Ht1 in *.
  repeat (split; [assumption|]).
  intros Hone.
  rewrite place_data_whole in Epl by (destruct Hone; auto).
  change (0 =? 0) with true in Epl. cbv iota in Epl. inversion Epl as [E3]. clear Epl.
  rewrite write_write.
  rewrite (write_at_end _ (mkfile c1 (length c1)) eq_refl). cbn [contents pos].
  split.
  - unfold c1. by rewrite <- !app_assoc.
  - intros Hlen. rewrite !length_app, length_replicate.
    unfold len in *. lia.
Qed.

Lemma for_each_pack_dims_run (dims : list Z) (ds : list (list byte)) (f : file) :
  mapM (pack_i native) dims = Ok ds ->
  for_each dims (fun dim => d ← lift (pack_i native dim); fwrite d) f
  = (write (concat ds) f, Ok tt).
Proof.
  revert ds f. induction dims as [|dim dims IH]; intros ds f E; cbn [mapM] in E.
  - inversion E. cbn [for_each concat]. by rewrite write_nil.
  - destruct (pack_i native dim) as [d|] eqn:Ed; cbn [mbind result_bind] in E;
      [|discriminate].
    destruct (mapM (pack_i native) dims) as [ds'|] eqn:Em;
      cbn [mbind result_bind mret result_ret] in E; [|discriminate].
    inversion E. cbn [for_each concat]. rewrite bind_run, bind_run. unfold lift at 1.
    rewrite Ed. cbn [fwrite]. rewrite (IH ds' _ eq_refl).
    by rewrite write_write.
Qed.

Lemma write_record_header_run
  (n_dims : Z) (sname : list byte) (ftype_cur : Z) (partshape : list Z)
  (h : list byte) (ds : list (list byte)) (f : file) :
  pack_ints native [n_dims; len sname; ftype_cur] = Ok h ->
  mapM (pack_i native) (rev partshape) = Ok ds ->
  write_record_header n_dims sname ftype_cur partshape f
  = (write (h ++ concat ds ++ sname) f, Ok tt).
Proof.
  intros Eh Ed. unfold write_record_header. rewrite bind_run. unfold lift at 1.
  rewrite Eh, bind_fwrite, bind_run, (for_each_pack_dims_run _ _ _ Ed).
  unfold fwrite. by rewrite !write_write.
Qed.

Lemma overwrite_prefix (a b c : list byte) (p : nat) :
  contents (write a (mkfile (contents (write (a ++ b) (mkfile c p))) p))
  = contents (write (a ++ b) (mkfile c p)).
Proof.
  destruct (decide (a = [])) as [->|Ha]; [reflexivity|].
  unfold write. cbn [contents pos].
  rewrite (write_at_nonempty c p (a ++ b)) by (by destruct a).
  rewrite (app_assoc (take p c)).
  set (X := take p c ++ replicate (p - length c) x00).
  assert (HX : length X = p).
  { unfold X. rewrite length_app, length_take, length_replicate. lia. }
  set (T := drop (p + length (a ++ b)) c).
  rewrite write_at_nonempty by done.
  rewrite (take_app_length' X _ p (eq_sym HX)).
  replace (p - length (X ++ (a ++ b) ++ T))%nat with 0%nat
    by (rewrite !length_app; lia).
  cbn [replicate app].
  replace (drop (p + length a) (X ++ (a ++ b) ++ T)) with (b ++ T).
  - by rewrite <- !app_assoc.
  - rewrite <- drop_drop, (drop_app_length' X _ p (eq_sym HX)).
    by rewrite <- app_assoc, drop_app_length.
Qed.

(** X12. A tensor of rank 1 is written by shard 0 alone, and a later
    shard's pass agrees with it: when shard 0 has written the record from
    some offset, the pass of a shard [part_id <> 0] over a tensor of the
    same name and shape from the same offset rewrites the same header and
    padding, leaves the data shard 0 wrote, and ends with the same file and
    cursor. *)
Theorem later_shard_keeps_rank1_record
  (ftype part_id n_parts : Z) (name : list Z) (datao datak : tensor)
  (a0 ak : ndarray) (f f0 : file) :
  endswith (pystr_of "freqs") name = false ->
  numpy datao = Ok a0 -> numpy datak = Ok ak ->
  shape (squeeze ak) = shape (squeeze a0) ->
  len (shape (squeeze a0)) = 1 ->
  part_id <> 0 ->
  write_variable ftype 0 n_parts name datao f = (f0, Ok tt) ->
  write_variable ftype part_id n_parts name datak (mkfile (contents f0) (pos f))
  = (f0, Ok tt).
Proof.
  intros Hs En0 Enk Hsh Hrank Hk H.
  destruct (write_variable_steps _ _ _ _ _ _ _ Hs H)
    as (a & data & ftype_cur & wtype & blck_size & type_size & sname & f1 & pad
        & f3 & nbytes & En & Hr & Hp & Hw & Hb & Ht & Es & Eh & Ea & Hpad & Hmod
        & Epl & Enb & Hpos & ->).
  rewrite En0 in En. inversion En; subst a. clear En.
  apply write_record_header_spec in Eh as (h & dims & Eh & Lh & Ed & Ld & ->).
  rewrite Hrank in *.
  rewrite place_data_whole in Epl by auto.
  change (0 =? 0) with true in Epl. cbv iota in Epl. inversion Epl as [E3]. clear Epl.
  rewrite align_body_run in Ea. inversion Ea as [[Epad Eoff]]. clear Ea.
  assert (Hpad' : Z.of_nat pad = (- tell (write (h ++ concat dims ++ sname) f)) mod 32)
    by lia.
  cbn [contents].
  set (Hd0 := h ++ concat dims ++ sname) in *.
  set (Zp0 := replicate pad x00) in *.
  (* the later pass *)
  unfold write_variable. rewrite Hs, bind_run. unfold lift at 1.
  rewrite Enk. cbn [fmap result_fmap]. rewrite Hsh, Hrank.
  change (in_1_2 1) with true. cbn [negb].
  assert (Hpk : plan_encoding ftype 1 (squeeze ak) = (astype_float32 (squeeze ak), 0)).
  { unfold plan_encoding. change (1 =? 1) with true. by rewrite orb_true_r. }
  assert (Hp0 : ftype_cur = 0).
  { unfold plan_encoding in Hp. change (1 =? 1) with true in Hp.
    rewrite orb_true_r in Hp. by inversion Hp. }
  subst ftype_cur. rewrite Hpk.
  rewrite bind_run. unfold lift at 1, getitem at 1. rewrite Hw.
  rewrite bind_run. unfold lift at 1, getitem at 1. rewrite Hb.
  rewrite bind_run. unfold lift at 1, getitem at 1. rewrite Ht.
  rewrite bind_run. unfold lift at 1. rewrite Es.
  rewrite bind_run, (write_record_header_run _ _ _ _ _ _ _ Eh Ed). fold Hd0.
  rewrite bind_run, align_body_run.
  assert (Htell : tell (write Hd0 (mkfile
            (contents (write (tobytes data) (write Zp0 (write Hd0 f)))) (pos f)))
          = tell (write Hd0 f)) by (by rewrite !tell_write).
  rewrite Htell, <- Hpad', Nat2Z.id. fold Zp0.
  rewrite bind_run, place_data_whole by auto.
  destruct (Z.eqb_spec part_id 0) as [|_]; [done|].
  rewrite bind_run. unfold lift at 1. rewrite Enb. unfold fseek.
  destruct (Z.ltb_spec (tell (write Hd0 f) + Z.of_nat pad + nbytes) 0); [lia|].
  f_equal. f_equal. cbn [contents].
  rewrite !write_write.
  destruct f as [c p]. cbn [pos].
  rewrite (app_assoc Hd0 Zp0). apply overwrite_prefix.
Qed.

(** *** What the tensor writer can raise *)

Lemma encode_raise (s : list Z) (e : exn) :
  encode s = Raise e -> e = UnicodeEncodeError.
Proof.
  induction s as [|c s IH]; cbn [encode]; [discriminate|].
  destruct (utf8_char c) as [b|e1] eqn:Ec; cbn [mbind result_bind].
  - destruct (encode s) as [bs|e2]; cbn [mbind result_bind]; [discriminate|].
    intros E. inversion E; subst. by apply IH.
  - intros E. inversion E; subst. unfold utf8_char in Ec.
    repeat match type of Ec with
           | (if ?b then _ else _) = _ => destruct b
           end; by inversion Ec.
Qed.

Lemma for_each_raise_cases {A} (xs : list A) (body : A -> io unit)
  (f f1 : file) (e : exn) :
  for_each xs body f = (f1, Raise e) ->
  exists x g, x ∈ xs /\ body x g = (f1, Raise e).
Proof.
  revert f. induction xs as [|x xs IH]; intros f; cbn [for_each]; [discriminate|].
  rewrite bind_run. destruct (body x f) as [g [[]|e1]] eqn:Eb.
  - intros E. destruct (IH _ E) as (y & g' & Hy & Ey).
    exists y, g'. split; [by apply elem_of_cons; right|done].
  - intros E. inversion E; subst. exists x, f. split; [by apply elem_of_cons; left|done].
Qed.

Lemma fseek_raise (p : Z) (f f1 : file) (e : exn) :
  fseek p f = (f1, Raise e) -> e = OSError /\ p < 0.
Proof.
  unfold fseek. destruct (Z.ltb_spec p 0); intros E; inversion E. by split.
Qed.

Lemma write_record_header_raise
  (n_dims : Z) (sname : list byte) (ftype_cur : Z) (partshape : list Z)
  (f f1 : file) (e : exn) :
  write_record_header n_dims sname ftype_cur partshape f = (f1, Raise e) ->
  e = StructError.
Proof.
  unfold write_record_header. rewrite bind_run. unfold lift at 1.
  destruct (pack_ints native _) as [h|e1] eqn:Eh.
  - rewrite bind_fwrite, bind_run.
    destruct (for_each _ _ _) as [f2 [[]|e2]] eqn:Ef; [discriminate|].
    intros E. inversion E; subst.
    apply for_each_raise_cases in Ef as (dim & g & _ & Eg).
    rewrite bind_run in Eg. unfold lift in Eg.
    destruct (pack_i native dim) as [d|e3] eqn:Ed; [discriminate|].
    inversion Eg; subst. by eapply pack_i_raise.
  - intros E. inversion E; subst. by eapply pack_ints_raise.
Qed.

Lemma plan_split_dim_2 (name : list Z) :
  plan_split_dim 2 name = Some 0 \/ plan_split_dim 2 name = Some 1.
Proof.
  unfold plan_split_dim. change (1 <? 2) with true. cbv iota.
  repeat match goal with
         | |- context [if ?b then _ else _] => destruct b
         end; auto.
Qed.

(** The placement fails only where one of its seeks does: the shape
    entries it reads exist, [split_dim] is bound where it is read, and the
    block width it divides by is not zero. *)
Lemma place_data_raise
  (data : ndarray) (partshape : list Z) (name : list Z)
  (part_id n_parts blck_size type_size body_start : Z) (f f1 : file) (e : exn) :
  len partshape = 1 \/ len partshape = 2 ->
  blck_size <> 0 ->
  place_data data partshape (len partshape) part_id n_parts
    (plan_split_dim (len partshape) name) blck_size type_size body_start f
  = (f1, Raise e) ->
  exists p g, fseek p g = (f1, Raise e).
Proof.
  intros Hlen Hb.
  destruct Hlen as [Hlen|Hlen].
  { rewrite Hlen, place_data_whole by auto. destruct (part_id =? 0); discriminate. }
  destruct partshape as [|rows [|cols [|x l]]];
    try (unfold len in Hlen; cbn [length] in Hlen; lia).
  clear Hlen. change (len [rows; cols]) with 2.
  destruct (decide (n_parts = 1)) as [->|Hn].
  { rewrite place_data_whole by auto. destruct (part_id =? 0); discriminate. }
  destruct (plan_split_dim_2 name) as [-> | ->].
  - unfold place_data. change (2 =? 1) with false.
    destruct (Z.eqb_spec n_parts 1) as [|_]; [done|]. cbn [orb].
    rewrite bind_lift_ok. change (0 =? 0) with true. cbv iota.
    change (index [rows; cols] 0) with (Ok rows). rewrite bind_lift_ok.
    change (index [rows; cols] 1) with (Ok cols). rewrite bind_lift_ok.
    unfold floordiv. destruct (Z.eqb_spec blck_size 0) as [|_]; [done|].
    rewrite bind_lift_ok, bind_run.
    destruct (fseek _ f) as [g [[]|e1]] eqn:Es; [discriminate|].
    intros E. inversion E; subst. by eexists _, _.
  - rewrite place_data_columns by done.
    intros E. apply for_each_raise_cases in E as (row & g & Hrow & Eg).
    rewrite bind_run in Eg.
    destruct (fseek _ g) as [g' [[]|e1]] eqn:Es; [discriminate|].
    inversion Eg; subst. by eexists _, _.
Qed.

Lemma ggml_nelements_nonneg (shape : list Z) :
  Forall (fun d => 0 <= d) shape -> 0 <= ggml_nelements shape.
Proof.
  induction 1 as [|x l Hx _ IH]; [by change (ggml_nelements []) with 1|].
  rewrite ggml_nelements_cons. nia.
Qed.

(** X13. The tensor writer's own lookups never fail.  Whatever the
    tensor, the name, the requested encoding, the shard index and the shard
    count, writing one tensor raises no [KeyError] (the three registries
    are read at tag 0 or 1 only), no [IndexError] ([partshape[0]] and
    [partshape[1]] are read for rank 2 only), no [NameError] ([split_dim] is
    read only where [n_dims > 1] has bound it) and no [ZeroDivisionError]
    (the block width of both tags is 1). *)
Theorem tensor_writer_lookups_never_fail
  (ftype part_id n_parts : Z) (name : list Z) (datao : tensor)
  (f f' : file) (e : exn) :
  write_variable ftype part_id n_parts name datao f = (f', Raise e) ->
  e <> KeyError /\ e <> IndexError /\ e <> NameError /\ e <> ZeroDivisionError.
Proof.
  unfold write_variable.
  destruct (endswith (pystr_of "freqs") name); [discriminate|].
  rewrite bind_run. unfold lift at 1.
  destruct (numpy datao) as [a|e1] eqn:En; cbn [fmap result_fmap].
  2:{ intros E. inversion E; subst. unfold numpy in En.
      destruct (t_dtype datao); inversion En. by repeat split. }
  destruct (in_1_2 (len (shape (squeeze a)))) eqn:Hr; cbn [negb].
  2:{ intros E. inversion E; subst. by repeat split. }
  assert (Hlen : len (shape (squeeze a)) = 1 \/ len (shape (squeeze a)) = 2).
  { unfold in_1_2 in Hr. destruct (Z.eqb_spec (len (shape (squeeze a))) 1); [auto|].
    destruct (Z.eqb_spec (len (shape (squeeze a))) 2); [auto|discriminate]. }
  destruct (plan_encoding ftype (len (shape (squeeze a))) (squeeze a))
    as [data ftype_cur] eqn:Hp.
  assert (Hfc : ftype_cur = 0 \/ ftype_cur = 1).
  { unfold plan_encoding in Hp. destruct (_ || _); inversion Hp; auto. }
  destruct (ggml_nbytes_float (shape (squeeze a)) ftype_cur Hfc)
    as (wtype & type_size & Hw & Hb & Ht & Hts & Enb).
  rewrite bind_run. unfold lift at 1, getitem at 1. rewrite Hw.
  rewrite bind_run. unfold lift at 1, getitem at 1. rewrite Hb.
  rewrite bind_run. unfold lift at 1, getitem at 1. rewrite Ht.
  rewrite bind_run. unfold lift at 1.
  destruct (encode name) as [sname|e1] eqn:Es.
  2:{ intros E. inversion E; subst. apply encode_raise in Es as ->.
      by repeat split. }
  rewrite bind_run.
  destruct (write_record_header _ _ _ _ f) as [f1 [[]|e1]] eqn:Eh.
  2:{ intros E. inversion E; subst. apply write_record_header_raise in Eh as ->.
      by repeat split. }
  rewrite bind_run, align_body_run.
  rewrite bind_run.
  destruct (place_data _ _ _ _ _ _ _ _ _ _) as [f3 [[]|e1]] eqn:Epl.
  2:{ intros E. inversion E; subst.
      apply place_data_raise in Epl as (p & g & Epl); [|done|lia].
      apply fseek_raise in Epl as [-> _]. by repeat split. }
  rewrite bind_run. unfold lift at 1. rewrite Enb.
  intros E. apply fseek_raise in E as [-> _]. by repeat split.
Qed.

(** *** The passes leave the header and the vocabulary alone *)

Lemma region_kept_write (region bs : list byte) (f : file) :
  region_kept region f -> region_kept region (write bs f).
Proof.
  intros [Hp Ht]. unfold region_kept, write. cbn [contents pos].
  split; [lia|].
  destruct (decide (bs = [])) as [->|Hbs]; [exact Ht|].
  rewrite write_at_nonempty by done.
  assert (Hl : (length region <= length (contents f))%nat).
  { apply (f_equal (@length byte)) in Ht. rewrite length_take in Ht. lia. }
  rewrite take_app_le by (rewrite length_take; lia).
  rewrite take_take. by replace (length region `min` pos f)%nat with (length region) by lia.
Qed.

Lemma region_kept_seek (region : list byte) (q : Z) (f f' : file) (r : result unit) :
  len region <= q -> region_kept region f -> fseek q f = (f', r) ->
  region_kept region f'.
Proof.
  intros Hq [Hp Ht]. unfold fseek. destruct (Z.ltb_spec q 0); intros E; inversion E; subst.
  - by split.
  - split; [cbn [pos]; unfold len in Hq; lia|exact Ht].
Qed.

Lemma region_kept_for_each {A} (region : list byte) (xs : list A) (body : A -> io unit) :
  (forall x f f' r, x ∈ xs -> region_kept region f -> body x f = (f', r) ->
                    region_kept region f') ->
  forall f f' r, region_kept region f -> for_each xs body f = (f', r) ->
                 region_kept region f'.
Proof.
  induction xs as [|x xs IH]; intros Hb f f' r Hk; cbn [for_each].
  - intros E. by inversion E; subst.
  - rewrite bind_run. destruct (body x f) as [g [[]|e]] eqn:Eb.
    + apply IH.
      * intros y g1 g2 r' Hy. apply Hb. by apply elem_of_cons; right.
      * eapply Hb; [by apply elem_of_cons; left|exact Hk|exact Eb].
    + intros E. inversion E; subst.
      eapply Hb; [by apply elem_of_cons; left|exact Hk|exact Eb].
Qed.

Lemma region_kept_record_header
  (region : list byte) (n_dims : Z) (sname : list byte) (ftype_cur : Z)
  (partshape : list Z) (f f' : file) (r : result unit) :
  region_kept region f ->
  write_record_header n_dims sname ftype_cur partshape f = (f', r) ->
  region_kept region f'.
Proof.
  intros Hk. unfold write_record_header. rewrite bind_run. unfold lift at 1.
  destruct (pack_ints native _) as [h|e]; [|by intros E; inversion E; subst].
  rewrite bind_fwrite, bind_run.
  destruct (for_each _ _ _) as [g [[]|e]] eqn:Ef.
  - unfold fwrite. intros E. inversion E; subst. apply region_kept_write.
    eapply (region_kept_for_each region); [|apply region_kept_write, Hk|exact Ef].
    intros dim g1 g2 r' _ Hk1. cbv beta. rewrite bind_run. unfold lift.
    destruct (pack_i native dim); intros E'; inversion E'; subst;
      [by apply region_kept_write|done].
  - intros E. inversion E; subst.
    eapply (region_kept_for_each region); [|apply region_kept_write, Hk|exact Ef].
    intros dim g1 g2 r' _ Hk1. cbv beta. rewrite bind_run. unfold lift.
    destruct (pack_i native dim); intros E'; inversion E'; subst;
      [by apply region_kept_write|done].
Qed.

Lemma region_kept_place_data
  (region : list byte) (data : ndarray) (partshape : list Z) (name : list Z)
  (part_id n_parts type_size body_start : Z) (f f' : file) (r : result unit) :
  len partshape = 1 \/ len partshape = 2 ->
  0 <= part_id -> Forall (fun d => 0 <= d) partshape -> 0 <= type_size ->
  len region <= body_start ->
  region_kept region f ->
  place_data data partshape (len partshape) part_id n_parts
    (plan_split_dim (len partshape) name) 1 type_size body_start f = (f', r) ->
  region_kept region f'.
Proof.
  intros Hlen Hk Hd Ht Hb Hkept.
  assert (Hwhole : len partshape = 1 \/ n_parts = 1 ->
    place_data data partshape (len partshape) part_id n_parts
      (plan_split_dim (len partshape) name) 1 type_size body_start f = (f', r) ->
    region_kept region f').
  { intros H. rewrite place_data_whole by exact H.
    destruct (part_id =? 0); intros E; inversion E; subst;
      [by apply region_kept_write|done]. }
  destruct Hlen as [Hlen|Hlen]; [apply Hwhole; auto|].
  destruct (decide (n_parts = 1)) as [Hn|Hn]; [apply Hwhole; auto|]. clear Hwhole.
  destruct partshape as [|rows [|cols [|x l]]];
    try (unfold len in Hlen; cbn [length] in Hlen; lia).
  clear Hlen. change (len [rows; cols]) with 2.
  inversion Hd as [|? ? Hr Hd']; subst. inversion Hd' as [|? ? Hc _]; subst.
  destruct (plan_split_dim_2 name) as [-> | ->].
  - unfold place_data. change (2 =? 1) with false.
    destruct (Z.eqb_spec n_parts 1) as [|_]; [done|]. cbn [orb].
    rewrite bind_lift_ok. change (0 =? 0) with true. cbv iota.
    change (index [rows; cols] 0) with (Ok rows). rewrite bind_lift_ok.
    change (index [rows; cols] 1) with (Ok cols). rewrite bind_lift_ok.
    unfold floordiv. change (1 =? 0) with false. cbv iota.
    rewrite bind_lift_ok, bind_run, Z.div_1_r.
    destruct (fseek _ f) as [g [[]|e]] eqn:Es.
    + unfold tofile, fwrite. intros E. inversion E; subst. apply region_kept_write.
      eapply region_kept_seek; [|exact Hkept|exact Es]. nia.
    + intros E. inversion E; subst.
      eapply region_kept_seek; [|exact Hkept|exact Es]. nia.
  - rewrite place_data_columns by (done || lia).
    apply region_kept_for_each; [|exact Hkept].
    intros row g1 g2 r' Hrow Hk1. apply elem_of_range in Hrow. cbv beta.
    rewrite bind_run, !Z.div_1_r.
    destruct (fseek _ g1) as [g [[]|e]] eqn:Es.
    + unfold tofile, fwrite. intros E. inversion E; subst. apply region_kept_write.
      eapply region_kept_seek; [|exact Hk1|exact Es]. nia.
    + intros E. inversion E; subst.
      eapply region_kept_seek; [|exact Hk1|exact Es]. nia.
Qed.

Lemma region_kept_write_variable
  (region : list byte) (ftype part_id n_parts : Z) (name : list Z) (datao : tensor)
  (f f' : file) (r : result unit) :
  0 <= part_id -> Forall (fun d => 0 <= d) (t_shape datao) ->
  region_kept region f ->
  write_variable ftype part_id n_parts name datao f = (f', r) ->
  region_kept region f'.
Proof.
  intros Hk Hd Hkept. unfold write_variable.
  destruct (endswith (pystr_of "freqs") name); [by intros E; inversion E; subst|].
  rewrite bind_run. unfold lift at 1.
  destruct (numpy datao) as [a|e1] eqn:En; cbn [fmap result_fmap];
    [|by intros E; inversion E; subst].
  destruct (in_1_2 (len (shape (squeeze a)))) eqn:Hr; cbn [negb];
    [|by intros E; inversion E; subst].
  assert (Hlen : len (shape (squeeze a)) = 1 \/ len (shape (squeeze a)) = 2).
  { unfold in_1_2 in Hr. destruct (Z.eqb_spec (len (shape (squeeze a))) 1); [auto|].
    destruct (Z.eqb_spec (len (shape (squeeze a))) 2); [auto|discriminate]. }
  destruct (plan_encoding ftype (len (shape (squeeze a))) (squeeze a))
    as [data ftype_cur] eqn:Hp.
  assert (Hfc : ftype_cur = 0 \/ ftype_cur = 1).
  { unfold plan_encoding in Hp. destruct (_ || _); inversion Hp; auto. }
  destruct (ggml_nbytes_float (shape (squeeze a)) ftype_cur Hfc)
    as (wtype & type_size & Hw & Hb & Ht & Hts & Enb).
  rewrite bind_run. unfold lift at 1, getitem at 1. rewrite Hw.
  rewrite bind_run. unfold lift at 1, getitem at 1. rewrite Hb.
  rewrite bind_run. unfold lift at 1, getitem at 1. rewrite Ht.
  rewrite bind_run. unfold lift at 1.
  destruct (encode name) as [sname|e1]; [|by intros E; inversion E; subst].
  rewrite bind_run.
  destruct (write_record_header _ _ _ _ f) as [f1 [[]|e1]] eqn:Eh.
  2:{ intros E. inversion E; subst. eapply region_kept_record_header; eauto. }
  assert (Hk1 : region_kept region f1) by (eapply region_kept_record_header; eauto).
  rewrite bind_run, align_body_run.
  pose proof (Z.mod_pos_bound (- tell f1) 32 ltac:(lia)) as Hpad.
  set (pad := (- tell f1) mod 32) in *.
  assert (Hk2 : region_kept region (write (replicate (Z.to_nat pad) x00) f1))
    by (by apply region_kept_write).
  assert (Hbody : len region <= tell f1 + pad).
  { destruct Hk1 as [Hp1 _]. unfold len, tell. lia. }
  assert (Hshape : Forall (fun d => 0 <= d) (shape (squeeze a))).
  { unfold numpy in En. destruct (t_dtype datao); inversion En; subst;
      cbn [squeeze shape]; apply Forall_forall; intros d Hin;
      apply list_elem_of_In, filter_In in Hin as [Hin _];
      by apply (proj1 (Forall_forall _ _) Hd), list_elem_of_In. }
  rewrite bind_run.
  destruct (place_data _ _ _ _ _ _ _ _ _ _) as [f3 [[]|e1]] eqn:Epl.
  2:{ intros E. inversion E; subst.
      eapply region_kept_place_data; [exact Hlen|exact Hk|exact Hshape| |exact Hbody
                                      |exact Hk2|exact Epl]. lia. }
  assert (Hk3 : region_kept region f3).
  { eapply region_kept_place_data; [exact Hlen|exact Hk|exact Hshape| |exact Hbody
                                    |exact Hk2|exact Epl]. lia. }
  rewrite bind_run. unfold lift at 1. rewrite Enb.
  intros E. eapply region_kept_seek; [|exact Hk3|exact E].
  pose proof (ggml_nelements_nonneg _ Hshape). nia.
Qed.

Lemma region_kept_process
  (region : list byte) (m : list (list Z * tensor)) (ftype part_id n_parts : Z)
  (f f' : file) (r : result unit) :
  0 <= part_id ->
  (forall name datao, (name, datao) ∈ m -> Forall (fun d => 0 <= d) (t_shape datao)) ->
  region_kept region f ->
  process_and_write_variables m ftype part_id n_parts f = (f', r) ->
  region_kept region f'.
Proof.
  intros Hk Hm. unfold process_and_write_variables.
  apply region_kept_for_each.
  intros [name datao] g1 g2 r' Hin Hk1. cbv beta iota.
  apply region_kept_write_variable; [exact Hk|by eapply Hm|exact Hk1].
Qed.

(** X14. The tensor passes never touch the header or the vocabulary.
    Whatever the shards hold (with dimensions that are not negative) and
    however the conversion ends, the output file begins with exactly the
    header and vocabulary bytes, which are the whole output of a
    vocabulary-only run on the same inputs. *)
Theorem passes_keep_header_and_vocabulary
  (ftype : Z) (params : gmap string Z) (tok : tokenizer pyfloat)
  (torch_load : Z -> result (list (list Z * tensor)))
  (f1 f2 : file) (out : list byte) (r : result unit) :
  (forall part_id m name datao,
     torch_load part_id = Ok m -> (name, datao) ∈ m ->
     Forall (fun d => 0 <= d) (t_shape datao)) ->
  write_header (load_hparams_and_tokenizer params tok).1 ftype empty_file
    = (f1, Ok tt) ->
  write_tokens tok f1 = (f2, Ok tt) ->
  main ftype false params tok torch_load = (Some out, r) ->
  take (length (contents f2)) out = contents f2 /\
  main ftype true params tok torch_load = (Some (contents f2), Ok tt).
Proof.
  intros Hshapes Hh Ht Hmain.
  cbn [load_hparams_and_tokenizer fst] in Hh.
  assert (Hend : pos f2 = length (contents f2)).
  { destruct (write_header_outcome (<["vocab_size" := vocab_size tok]> params) ftype
                empty_file) as [(b & E & _)|(e & E & _)];
      rewrite E in Hh; inversion Hh; subst f1.
    unfold write_tokens in Ht. apply for_each_write_token in Ht as (records & _ & ->).
    rewrite write_write. by rewrite (write_at_end _ empty_file eq_refl). }
  unfold main in *.
  destruct (negb _) eqn:Hc; [discriminate|].
  cbn [load_hparams_and_tokenizer] in *.
  split.
  2:{ by rewrite bind_run, Hh, Ht. }
  destruct (_ ≫= _) as [n_parts|e]; [|discriminate].
  rewrite bind_run, Hh, bind_run, Ht, bind_run in Hmain.
  unfold ftell at 1 in Hmain.
  destruct (for_each _ _ f2) as [fout r'] eqn:Ef.
  assert (Hk : region_kept (contents f2) fout).
  { eapply (region_kept_for_each (contents f2)); [| |exact Ef].
    - intros part_id g1 g2 r2 Hin Hk1. cbv beta. apply elem_of_range in Hin.
      rewrite bind_run.
      destruct (fseek (tell f2) g1) as [g [[]|e]] eqn:Es.
      2:{ intros E. inversion E; subst.
          eapply region_kept_seek; [|exact Hk1|exact Es]. unfold len, tell. lia. }
      assert (Hk2 : region_kept (contents f2) g).
      { eapply region_kept_seek; [|exact Hk1|exact Es]. unfold len, tell. lia. }
      rewrite bind_run. unfold lift at 1.
      destruct (torch_load part_id) as [m|e] eqn:El; [|by intros E; inversion E; subst].
      apply region_kept_process; [lia| |exact Hk2].
      intros name datao Hin'. by eapply Hshapes.
    - split; [lia|]. by rewrite firstn_all. }
  destruct Hk as [_ Hk]. destruct r' as [[]|e]; inversion Hmain; subst; exact Hk.
Qed.

Lemma get_n_parts_inv (dim n_parts : Z) :
  get_n_parts dim = Ok n_parts ->
  n_parts = 1 \/ n_parts = 2 \/ n_parts = 4 \/ n_parts = 8.
Proof.
  destruct (decide (dim = 4096)) as [->|H1]; [vm_compute; intros E; inversion E; auto|].
  destruct (decide (dim = 5120)) as [->|H2]; [vm_compute; intros E; inversion E; auto|].
  destruct (decide (dim = 6656)) as [->|H3]; [vm_compute; intros E; inversion E; auto|].
  destruct (decide (dim = 8192)) as [->|H4]; [vm_compute; intros E; inversion E; auto|].
  by rewrite get_n_parts_unknown.
Qed.

(** X15. When the first shard cannot be loaded, a conversion that has
    written the header and the vocabulary ends with the loader's error and
    leaves on disk exactly those two parts. *)
Theorem missing_first_shard
  (ftype dim n_parts : Z) (params : gmap string Z) (tok : tokenizer pyfloat)
  (torch_load : Z -> result (list (list Z * tensor))) (f1 f2 : file) (e : exn) :
  ftype = 0 \/ ftype = 1 \/ ftype = 2 ->
  params !! "dim" = Some dim -> get_n_parts dim = Ok n_parts ->
  write_header (load_hparams_and_tokenizer params tok).1 ftype empty_file
    = (f1, Ok tt) ->
  write_tokens tok f1 = (f2, Ok tt) ->
  torch_load 0 = Raise e ->
  main ftype false params tok torch_load = (Some (contents f2), Raise e).
Proof.
  intros Hf Hd Hn Hh Ht Hl. unfold main.
  replace (negb ((ftype =? 0) || (ftype =? 1) || (ftype =? 2))) with false
    by (destruct Hf as [->|[->| ->]]; reflexivity).
  pose proof (hparams_dim params tok) as Hd'.
  cbn [load_hparams_and_tokenizer fst] in *.
  unfold getitem. rewrite Hd', Hd. cbn [mbind result_bind]. rewrite Hn.
  rewrite bind_run, Hh, bind_run, Ht, bind_run. unfold ftell at 1.
  assert (Hr : exists l, range n_parts = 0 :: l).
  { apply get_n_parts_inv in Hn as [->|[->|[->| ->]]]; eexists; reflexivity. }
  destruct Hr as [l ->]. cbn [for_each].
  rewrite bind_run, bind_run. unfold fseek.
  destruct (Z.ltb_spec (tell f2) 0); [unfold tell in *; lia|].
  rewrite bind_run. unfold lift at 1. rewrite Hl. reflexivity.
Qed.

(** *** Shapes *)

(** X16. Dropping the axes of length one changes neither the element count
    of a shape nor the bytes of the array, and leaves no axis of length
    one. *)
Theorem squeeze_keeps_elements (a : ndarray) :
  ggml_nelements (shape (squeeze a)) = ggml_nelements (shape a) /\
  tobytes (squeeze a) = tobytes a /\
  ~ 1 ∈ shape (squeeze a).
Proof.
  split; [|split; [reflexivity|]].
  - cbn [squeeze shape]. induction (shape a) as [|d l IH]; [reflexivity|].
    cbn [List.filter]. destruct (Z.eqb_spec d 1) as [->|]; cbn [negb].
    + rewrite ggml_nelements_cons, IH. lia.
    + by rewrite !ggml_nelements_cons, IH.
  - cbn [squeeze shape]. intros Hin.
    apply list_elem_of_In, filter_In in Hin as [_ Hne]. discriminate Hne.
Qed.

(** *** Row parts, one shard after the other *)

(** X17. Row partition, any number of shards: when the body holds the
    bytes [before] of the shards before [part_id] (which take
    [part_id * rows * bytes_per_row] bytes from the body start), placing the
    rows of shard [part_id] makes the body hold [before] followed by this
    shard's bytes. *)
Theorem row_parts_follow_each_other
  (data : ndarray) (rows cols part_id n_parts blck_size type_size : Z)
  (body_start : nat) (before c : list byte) (f : file) :
  n_parts <> 1 -> blck_size <> 0 ->
  len before = part_id * rows * (cols / blck_size * type_size) ->
  contents f = contents (write before (mkfile c body_start)) ->
  exists f',
    place_data data [rows; cols] 2 part_id n_parts (Some 0) blck_size type_size
      (Z.of_nat body_start) f = (f', Ok tt) /\
    f' = write (before ++ tobytes data) (mkfile c body_start).
Proof.
  intros Hn Hb Hlen Hc. eexists. split.
  - apply place_data_rows; [done|done|]. unfold len in Hlen. lia.
  - rewrite Hc, <- write_write. f_equal. unfold write at 2. cbn [pos contents].
    f_equal. unfold len in Hlen. lia.
Qed.

End Converter.

(** ** The properties at sample inputs *)

Lemma ggml_nbytes_exact_witness :
  WTYPES !! 2 = Some GGML_TYPE_Q4_0 /\
  GGML_BLCK_SIZE !! GGML_TYPE_Q4_0 = Some 32 /\
  GGML_TYPE_SIZE !! GGML_TYPE_Q4_0 = Some 20 /\
  ggml_nelements [64; 32] mod 32 = 0 /\
  ggml_nbytes [64; 32] 2 = Ok (ggml_nelements [64; 32] * 20 / 32).
Proof.
  assert (H1 : WTYPES !! 2 = Some GGML_TYPE_Q4_0) by reflexivity.
  assert (H2 : GGML_BLCK_SIZE !! GGML_TYPE_Q4_0 = Some 32) by reflexivity.
  assert (H3 : GGML_TYPE_SIZE !! GGML_TYPE_Q4_0 = Some 20) by reflexivity.
  assert (H4 : ggml_nelements [64; 32] mod 32 = 0) by reflexivity.
  split; [exact H1|]. split; [exact H2|]. split; [exact H3|]. split; [exact H4|].
  exact (proj1 (proj2 (ggml_nbytes_exact [64; 32] 2 GGML_TYPE_Q4_0 32 20 H1 H2 H3 H4))).
Defined.

Lemma shard_count_lookup_witness :
  params_scenario !! "dim" = Some 4096 /\
  (<["dim" := 4000]> params_scenario) !! "dim" = Some 4000 /\
  get_n_parts 4096 = Ok 1 /\
  get_n_parts 4000 = Raise (SystemExit 1) /\
  main LittleEndian unit pack_unit (fun _ x => x) 1 false
    (<["dim" := 4000]> params_scenario) small_tokenizer (fun _ => Ok []) =
  (None, Raise (SystemExit 1)).
Proof.
  assert (H1 : params_scenario !! "dim" = Some 4096) by reflexivity.
  assert (H2 : (<["dim" := 4000]> params_scenario) !! "dim" = Some 4000) by reflexivity.
  pose proof (shard_count_lookup LittleEndian unit pack_unit (fun _ x => x) 1 4000
                (<["dim" := 4000]> params_scenario) small_tokenizer (fun _ => Ok [])
                (or_intror (or_introl eq_refl)) H2) as (E1 & _ & _ & _ & Hother).
  destruct Hother as [E2 E3]; try (intros E; discriminate E).
  split; [exact H1|]. split; [exact H2|]. split; [exact E1|]. split; [exact E2|].
  exact E3.
Defined.

Lemma split_axis_by_name_witness :
  plan_split_dim 2 (pystr_of "tok_embeddings.weight") = Some 1 /\
  plan_split_dim 2 (pystr_of "layers.0.attention.wo.weight") = Some 1 /\
  plan_split_dim 2 (pystr_of "layers.3.feed_forward.w1.weight") = Some 0 /\
  plan_split_dim 2 (pystr_of "output.weight") = Some 0 /\
  plan_split_dim 2 (pystr_of "norm.weight") = Some 1.
Proof.
  split; [|split; [|split; [|split]]].
  - apply (proj1 (split_axis_by_name (pystr_of "tok_embeddings.weight"))).
    reflexivity.
  - apply (proj1 (proj2 (split_axis_by_name (pystr_of "layers.0.attention.wo.weight")))).
    + intros E; discriminate E.
    + reflexivity.
    + left. reflexivity.
  - apply (proj1 (proj2 (proj2
      (split_axis_by_name (pystr_of "layers.3.feed_forward.w1.weight")))));
      try (intros E; discriminate E). reflexivity.
  - apply (proj1 (proj2 (proj2 (proj2 (split_axis_by_name (pystr_of "output.weight"))))));
      try (intros E; discriminate E). reflexivity.
  - apply (proj2 (proj2 (proj2 (proj2 (split_axis_by_name (pystr_of "norm.weight"))))));
      intros E; discriminate E.
Defined.

Lemma tensor_encoding_decision_witness :
  plan_encoding (fun _ x => x) 1 1 (mkarray float16 [4096] []) =
    (astype_float32 (fun _ x => x) (mkarray float16 [4096] []), 0) /\
  plan_encoding (fun _ x => x) 1 2 (mkarray float16 [4096; 4096] []) =
    (mkarray float16 [4096; 4096] [], 1) /\
  plan_encoding (fun _ x => x) 2 2 (mkarray float16 [4096; 4096] []) =
    (mkarray float16 [4096; 4096] [], 1).
Proof.
  split; [|split].
  - apply (proj1 (tensor_encoding_decision (fun _ x => x) 1 1 (mkarray float16 [4096] []))).
    right. reflexivity.
  - apply (proj1 (proj2 (tensor_encoding_decision (fun _ x => x) 1 2
                           (mkarray float16 [4096; 4096] []))));
      intros E; discriminate E.
  - apply (proj1 (proj2 (tensor_encoding_decision (fun _ x => x) 2 2
                           (mkarray float16 [4096; 4096] []))));
      intros E; discriminate E.
Defined.

Lemma header_layout_witness :
  exists fields,
    write_header LittleEndian params_scenario 1 empty_file =
      (write (concat fields) empty_file, Ok tt) /\
    length fields = 9%nat /\
    Forall2 (fun b v => pack_i LittleEndian v = Ok b /\ unpack_i LittleEndian b = v)
      fields [0x67676a74; 1; 3; 4096; 256; 32; 1; 4096 / 32; 1].
Proof.
  assert (Hr : Forall int32 [3; 4096; 256; 32; 1; 4096 / 32; 1]).
  { repeat (constructor; [unfold int32; split; [discriminate|reflexivity]|]).
    constructor. }
  destruct (header_layout LittleEndian params_scenario 1 empty_file 3 4096 256 32 1
              eq_refl eq_refl eq_refl eq_refl eq_refl
              ltac:(intros E; discriminate E) Hr)
    as (fields & E & L & _ & F2).
  exists fields. split; [exact E|]. split; [exact L|]. exact F2.
Defined.

(** C3, as the format description has it (vocab_size seventh): in the
    end-to-end scenario the header that is written differs from the nine
    values packed in the described order, in either byte order. *)
Lemma header_order_counterexample :
  header_values_as_described params_scenario 1 =
    Ok [0x67676a74; 1; 4096; 256; 32; 1; 3; 128; 1] /\
  (exists out described,
     write_header LittleEndian params_scenario 1 empty_file = (out, Ok tt) /\
     pack_ints LittleEndian [0x67676a74; 1; 4096; 256; 32; 1; 3; 128; 1] = Ok described /\
     contents out <> described /\
     Ok (contents out) = pack_ints LittleEndian [0x67676a74; 1; 3; 4096; 256; 32; 1; 128; 1]) /\
  (exists out described,
     write_header BigEndian params_scenario 1 empty_file = (out, Ok tt) /\
     pack_ints BigEndian [0x67676a74; 1; 4096; 256; 32; 1; 3; 128; 1] = Ok described /\
     contents out <> described /\
     Ok (contents out) = pack_ints BigEndian [0x67676a74; 1; 3; 4096; 256; 32; 1; 128; 1]).
Proof.
  split; [vm_compute; reflexivity|]. split.
  - eexists _, _. split; [vm_compute; reflexivity|].
    split; [vm_compute; reflexivity|].
    split; [intros E; discriminate E|vm_compute; reflexivity].
  - eexists _, _. split; [vm_compute; reflexivity|].
    split; [vm_compute; reflexivity|].
    split; [intros E; discriminate E|vm_compute; reflexivity].
Qed.

Lemma body_start_aligned_witness :
  endswith (pystr_of "freqs") (pystr_of "norm.weight") = false /\
  exists f' f1 pad,
    write_variable LittleEndian (fun _ x => x) 1 0 1 (pystr_of "norm.weight") norm
      (mkfile [] 36) = (f', Ok tt) /\
    align_body f1 = (write (replicate pad x00) f1, Ok (tell f1 + Z.of_nat pad)) /\
    (tell f1 + Z.of_nat pad) mod 32 = 0 /\
    (pad < 32)%nat.
Proof.
  set (f' := (write_variable LittleEndian (fun _ x => x) 1 0 1 (pystr_of "norm.weight")
                norm (mkfile [] 36)).1).
  assert (Hs : endswith (pystr_of "freqs") (pystr_of "norm.weight") = false)
    by reflexivity.
  assert (H : write_variable LittleEndian (fun _ x => x) 1 0 1 (pystr_of "norm.weight")
                norm (mkfile [] 36) = (f', Ok tt)) by (vm_compute; reflexivity).
  destruct (body_start_aligned LittleEndian (fun _ x => x) 1 0 1
              (pystr_of "norm.weight") norm (mkfile [] 36) f' Hs H)
    as (_ & a & sname & data & ftype_cur & blck_size & type_size & f1 & pad & f3
        & En & Es & Eh & Ea & Hmod & Hpad & _).
  split; [exact Hs|].
  exists f', f1, pad. split; [exact H|]. split; [exact Ea|]. split; [exact Hmod|].
  exact Hpad.
Defined.


Lemma vocab_count_consistent_witness :
  0 <= vocab_size small_tokenizer /\
  exists f1 f2 fields records,
    write_header LittleEndian
      (load_hparams_and_tokenizer unit params_13B small_tokenizer).1 1 empty_file
      = (f1, Ok tt) /\
    write_tokens LittleEndian unit pack_unit
      (load_hparams_and_tokenizer unit params_13B small_tokenizer).2 f1 = (f2, Ok tt) /\
    (load_hparams_and_tokenizer unit params_13B small_tokenizer).1 !! "vocab_size"
      = Some 3 /\
    f1 = write (concat fields) empty_file /\
    (exists b, fields !! 2%nat = Some b /\ unpack_i LittleEndian b = 3) /\
    f2 = write (concat records) f1 /\
    len records = 3.
Proof.
  split; [discriminate|].
  set (hp := (load_hparams_and_tokenizer unit params_13B small_tokenizer).1).
  set (tk := (load_hparams_and_tokenizer unit params_13B small_tokenizer).2).
  set (f1 := (write_header LittleEndian hp 1 empty_file).1).
  set (f2 := (write_tokens LittleEndian unit pack_unit tk f1).1).
  assert (H1 : write_header LittleEndian hp 1 empty_file = (f1, Ok tt))
    by (vm_compute; reflexivity).
  assert (H2 : write_tokens LittleEndian unit pack_unit tk f1 = (f2, Ok tt))
    by (vm_compute; reflexivity).
  destruct (vocab_count_consistent LittleEndian unit pack_unit (fun _ x => x) 1
              params_13B small_tokenizer empty_file f1 f2
              ltac:(discriminate) H1 H2)
    as (Hv & fields & records & E1 & _ & _ & (b & Hb & _ & Hu) & E2 & Hl & _).
  exists f1, f2, fields, records.
  split; [exact H1|]. split; [exact H2|]. split; [exact Hv|]. split; [exact E1|].
  split; [exists b; split; [exact Hb|exact Hu]|]. split; [exact E2|exact Hl].
Defined.

(** ** Two shards *)

(** C1, evaluated on a model of two shards.  Row partition: the two shards
    of the 4 x 2 projection land one after the other from the body start
    (offset 96), which is the unsharded row-major buffer.  Column partition:
    the two shards of the 2 x 4 embedding table are written with a row
    stride of one shard's row (8 bytes) and not of the full row (16 bytes),
    so row 0 of shard 1 lands on row 1 of shard 0: the body holds
    1 2 5 6 7 8 where the unsharded buffer is 1 2 5 6 3 4 7 8. *)
Theorem split_reconstruction_two_shards
  (bo : byteorder) (to_float32 : dtype -> bytes -> bytes) :
  (exists out,
     main bo unit pack_unit to_float32 0 false params_13B empty_tokenizer
       projection_shards = (Some out, Ok tt) /\
     drop 96 out =
       rows_joined [mkarray float32 [2; 2] (map f32_item [1; 2; 3; 4]);
                    mkarray float32 [2; 2] (map f32_item [5; 6; 7; 8])]) /\
  (exists out,
     main bo unit pack_unit to_float32 0 false params_13B empty_tokenizer
       column_shards = (Some out, Ok tt) /\
     drop 96 out = concat (map f32_item [1; 2; 5; 6; 7; 8]) /\
     columns_joined 2 [mkarray float32 [2; 2] (map f32_item [1; 2; 3; 4]);
                       mkarray float32 [2; 2] (map f32_item [5; 6; 7; 8])] =
       concat (map f32_item [1; 2; 5; 6; 3; 4; 7; 8]) /\
     drop 96 out <>
       columns_joined 2 [mkarray float32 [2; 2] (map f32_item [1; 2; 3; 4]);
                         mkarray float32 [2; 2] (map f32_item [5; 6; 7; 8])]).
Proof.
  split.
  - destruct bo; eexists; (split; [vm_compute; reflexivity|]); vm_compute; reflexivity.
  - destruct bo; eexists; (split; [vm_compute; reflexivity|]);
      (split; [vm_compute; reflexivity|]); (split; [vm_compute; reflexivity|]);
      vm_compute; intros E; discriminate E.
Qed.

(** C2, evaluated on the second of two shards.  The shard holds rows 2 and
    3 of the 4 x 2 projection.  Its record starts at offset 0, the body at
    64; the shard's 16 bytes are written at 80, and the cursor is then set
    to 64 + 16 = 80, the size of the shard's own 2 x 2 part, where the
    unsharded 4 x 2 body ends at 64 + 32.  In a whole run the record of the
    next tensor is therefore written at body start + 16, over the rows of
    the second shard. *)
Theorem cursor_after_second_shard
  (bo : byteorder) (to_float32 : dtype -> bytes -> bytes) :
  (exists fout,
     process_and_write_variables bo to_float32
       [(pystr_of "layers.0.attention.wq.weight", quad 5 6 7 8)] 0 1 2
       (mkfile [] 0) = (fout, Ok tt) /\
     tell fout = 64 + 16 /\
     ggml_nbytes [2; 2] 0 = Ok 16 /\
     ggml_nbytes [4; 2] 0 = Ok 32 /\
     drop 80 (contents fout) = concat (map f32_item [5; 6; 7; 8])) /\
  (exists out,
     main bo unit pack_unit to_float32 0 false params_13B empty_tokenizer
       row_shards = (Some out, Ok tt) /\
     take 16 (drop 96 out) = concat (map f32_item [1; 2; 3; 4]) /\
     Ok (take 12 (drop (96 + 16) out)) = pack_ints bo [1; 11; 0] /\
     take 11 (drop (96 + 16 + 16) out) = [x6e; x6f; x72; x6d; x2e; x77; x65; x69; x67; x68; x74]).
Proof.
  split.
  - destruct bo; eexists; (split; [vm_compute; reflexivity|]);
      repeat split; vm_compute; reflexivity.
  - destruct bo; eexists; (split; [vm_compute; reflexivity|]);
      repeat split; vm_compute; reflexivity.
Qed.

(** ** The further properties at sample inputs *)

Lemma unsupported_rank_aborts_witness :
  process_and_write_variables LittleEndian (fun _ x => x)
    [(pystr_of "norm.weight", norm); (pystr_of "scale", scalar);
     (pystr_of "output.weight", quad 1 2 3 4)] 0 0 1 (mkfile [] 0)
  = ((process_and_write_variables LittleEndian (fun _ x => x)
        [(pystr_of "norm.weight", norm)] 0 0 1 (mkfile [] 0)).1,
     Raise AssertionError).
Proof.
  set (f1 := (process_and_write_variables LittleEndian (fun _ x => x)
                [(pystr_of "norm.weight", norm)] 0 0 1 (mkfile [] 0)).1).
  assert (Hb : process_and_write_variables LittleEndian (fun _ x => x)
                 [(pystr_of "norm.weight", norm)] 0 0 1 (mkfile [] 0) = (f1, Ok tt))
    by (vm_compute; reflexivity).
  exact (proj2 (unsupported_rank_aborts LittleEndian (fun _ x => x) 0 0 1
                  [(pystr_of "norm.weight", norm)]
                  [(pystr_of "output.weight", quad 1 2 3 4)]
                  (pystr_of "scale") scalar (mkfile [] 0) f1
                  eq_refl ltac:(discriminate) ltac:(discriminate) ltac:(discriminate)
                  Hb)).
Defined.

Lemma write_header_all_or_nothing_witness :
  write_header LittleEndian (<["n_heads" := 0]> params_scenario) 1 (mkfile [x01] 1)
    = (mkfile [x01] 1, Raise ZeroDivisionError) /\
  write_header LittleEndian (delete "n_layers" params_scenario) 1 (mkfile [x01] 1)
    = (mkfile [x01] 1, Raise KeyError).
Proof.
  split.
  - apply (proj2 (proj2 (write_header_all_or_nothing LittleEndian
                           (<["n_heads" := 0]> params_scenario) 1 (mkfile [x01] 1))));
      try (eexists; reflexivity).
  - apply (proj1 (proj2 (write_header_all_or_nothing LittleEndian
                           (delete "n_layers" params_scenario) 1 (mkfile [x01] 1)))).
    right. right. right. right. reflexivity.
Defined.

Lemma failed_header_leaves_empty_file_witness :
  write_header LittleEndian
    (load_hparams_and_tokenizer unit (<["n_heads" := 0]> params_scenario)
       small_tokenizer).1 1 empty_file = (empty_file, Raise ZeroDivisionError) /\
  main LittleEndian unit pack_unit (fun _ x => x) 1 true
    (<["n_heads" := 0]> params_scenario) small_tokenizer no_shards
    = (Some [], Raise ZeroDivisionError) /\
  main LittleEndian unit pack_unit (fun _ x => x) 1 false
    (<["n_heads" := 0]> params_scenario) small_tokenizer no_shards
    = (Some [], Raise ZeroDivisionError).
Proof.
  assert (H : write_header LittleEndian
    (load_hparams_and_tokenizer unit (<["n_heads" := 0]> params_scenario)
       small_tokenizer).1 1 empty_file = (empty_file, Raise ZeroDivisionError))
    by (vm_compute; reflexivity).
  destruct (failed_header_leaves_empty_file LittleEndian unit pack_unit (fun _ x => x) 1
              (<["n_heads" := 0]> params_scenario) small_tokenizer no_shards
              empty_file ZeroDivisionError (or_intror (or_introl eq_refl)) H)
    as [E1 E2].
  split; [exact H|]. split; [exact E1|].
  apply (E2 4096 1); reflexivity.
Defined.

Lemma vocabulary_reads_back_witness :
  exists fout,
    write_tokens LittleEndian unit pack_unit small_tokenizer (mkfile [x07; x07] 2)
      = (fout, Ok tt) /\
    exists entries,
      read_vocab LittleEndian 3 (drop 2 (contents fout) ++ [x09])
        = Some (entries, [x09]) /\
      Forall2 (fun entry i =>
                 token_text unit small_tokenizer i = Ok entry.1 /\
                 pack_unit (get_score small_tokenizer i) = Ok entry.2)
              entries (range 3).
Proof.
  set (fout := (write_tokens LittleEndian unit pack_unit small_tokenizer
                  (mkfile [x07; x07] 2)).1).
  assert (Hw : write_tokens LittleEndian unit pack_unit small_tokenizer
                 (mkfile [x07; x07] 2) = (fout, Ok tt)) by (vm_compute; reflexivity).
  assert (Hf : forall (x : unit) (b : list byte), pack_unit x = Ok b -> length b = 4%nat)
    by (intros x b E; inversion E; reflexivity).
  destruct (vocabulary_reads_back LittleEndian unit pack_unit small_tokenizer
              (mkfile [x07; x07] 2) fout [x09] Hf eq_refl Hw)
    as (_ & _ & entries & E & HF).
  exists fout. split; [exact Hw|]. exists entries. split; [exact E|exact HF].
Defined.

Lemma byte_pieces_round_trip_witness :
  id_to_piece small_tokenizer 2 = byte_piece 65 /\
  token_text unit small_tokenizer 2 = Ok [byte_of_Z 65].
Proof.
  split; [reflexivity|].
  exact (proj1 (byte_pieces_round_trip unit small_tokenizer 2 65
                  ltac:(split; [discriminate|reflexivity])
                  eq_refl eq_refl eq_refl eq_refl)).
Defined.

Lemma ordinary_piece_text_witness :
  token_text unit word_tokenizer 0 = Ok [x20; x48; x69].
Proof.
  assert (Hp : Forall (fun c => 0 <= c < 128 \/ c = 0x2581)
                 (id_to_piece word_tokenizer 0)).
  { change (id_to_piece word_tokenizer 0) with [9601; 72; 105].
    constructor; [right; reflexivity|].
    constructor; [left; split; [discriminate|reflexivity]|].
    constructor; [left; split; [discriminate|reflexivity]|].
    constructor. }
  exact (proj1 (ordinary_piece_text unit word_tokenizer 0 eq_refl eq_refl eq_refl Hp)).
Defined.

Lemma write_tokens_stops_at_first_failure_witness :
  exists record,
    vocab_record LittleEndian unit pack_unit word_tokenizer record 0 /\
    write_tokens LittleEndian unit pack_unit word_tokenizer empty_file
      = (write (concat [record]) empty_file, Raise (SystemExit 1)).
Proof.
  set (record := [x03; x00; x00; x00; x20; x48; x69; x00; x00; x00; x00]).
  assert (Hr : vocab_record LittleEndian unit pack_unit word_tokenizer record 0).
  { exists [x20; x48; x69], [x03; x00; x00; x00], [x00; x00; x00; x00].
    split; [reflexivity|]. split; [reflexivity|]. split; reflexivity. }
  exists record. split; [exact Hr|].
  exact (proj1 (write_tokens_stops_at_first_failure LittleEndian unit pack_unit
                  word_tokenizer 1 (SystemExit 1) [record] empty_file
                  ltac:(split; [discriminate|reflexivity])
                  (List.Forall2_cons _ _ Hr (List.Forall2_nil _))
                  eq_refl)).
Defined.

Lemma unsharded_body_is_n_parts_witness :
  ggml_nbytes [2; 2] 0 = Ok 16 /\
  ggml_nbytes [2 * 2; 2] 0 = Ok (2 * 16) /\
  ggml_nbytes [2; 2 * 2] 0 = Ok (2 * 16).
Proof.
  assert (H : ggml_nbytes [2; 2] 0 = Ok 16) by reflexivity.
  split; [exact H|].
  exact (unsharded_body_is_n_parts 2 2 2 0 16 (or_introl eq_refl) H).
Defined.

Lemma ggml_nbytes_selectors_witness :
  ggml_nbytes [2; 2] 7 = Raise KeyError /\
  exists x, ggml_nbytes [2; 2] 3 = Ok x.
Proof.
  split.
  - apply (proj1 (proj2 (ggml_nbytes_selectors [2; 2] 7))).
    intros [_ H]. exact (H eq_refl).
  - apply (proj1 (ggml_nbytes_selectors [2; 2] 3)).
    split; discriminate.
Defined.

Lemma unpartitioned_record_layout_witness :
  exists f' h dims,
    write_variable LittleEndian (fun _ x => x) 1 0 1 (pystr_of "norm.weight") norm
      (mkfile [x07] 1) = (f', Ok tt) /\
    pack_ints LittleEndian [1; 11; 0] = Ok h /\
    mapM (pack_i LittleEndian) [2] = Ok dims /\
    contents f' =
      [x07] ++ h ++ concat dims ++
      [x6e; x6f; x72; x6d; x2e; x77; x65; x69; x67; x68; x74] ++
      replicate 4 x00 ++ f32_item 9 ++ f32_item 10 /\
    pos f' = length (contents f').
Proof.
  set (f' := (write_variable LittleEndian (fun _ x => x) 1 0 1 (pystr_of "norm.weight")
                norm (mkfile [x07] 1)).1).
  assert (H : write_variable LittleEndian (fun _ x => x) 1 0 1 (pystr_of "norm.weight")
                norm (mkfile [x07] 1) = (f', Ok tt)) by (vm_compute; reflexivity).
  destruct (unpartitioned_record_layout LittleEndian (fun _ x => x) 1 1
              (pystr_of "norm.weight") norm (mkfile [x07] 1) f' eq_refl eq_refl H)
    as (a & data & ftype_cur & h & dims & sname & pad & nbytes & En & Hp & Eh & Ed
        & Es & Enb & Hpad & Hmod & Hlay).
  vm_compute in En. inversion En; subst a. clear En.
  vm_compute in Hp. inversion Hp; subst data ftype_cur. clear Hp.
  vm_compute in Es. inversion Es; subst sname. clear Es.
  vm_compute in Enb. inversion Enb; subst nbytes. clear Enb.
  destruct (Hlay (or_introl eq_refl)) as [Hc Hend].
  assert (Lh : length h = 12%nat) by (vm_compute in Eh; by inversion Eh).
  assert (Ld : length (concat dims) = 4%nat) by (vm_compute in Ed; by inversion Ed).
  assert (pad = 4%nat).
  { unfold len in Hmod. rewrite !length_app, Lh, Ld in Hmod. cbn [length] in Hmod.
    clear -Hmod Hpad.
    do 32 (destruct pad as [|pad]; [try discriminate Hmod; try reflexivity|]). lia. }
  subst pad.
  exists f', h, dims. split; [exact H|]. split; [exact Eh|]. split; [exact Ed|].
  split; [exact Hc|]. apply Hend. reflexivity.
Defined.

Lemma later_shard_keeps_rank1_record_witness :
  exists f0,
    write_variable LittleEndian (fun _ x => x) 1 0 2 (pystr_of "norm.weight") norm
      (mkfile [x07] 1) = (f0, Ok tt) /\
    write_variable LittleEndian (fun _ x => x) 1 1 2 (pystr_of "norm.weight")
      (mktensor float32 [2] [f32_item 3; f32_item 4]) (mkfile (contents f0) 1)
    = (f0, Ok tt).
Proof.
  set (f0 := (write_variable LittleEndian (fun _ x => x) 1 0 2 (pystr_of "norm.weight")
                norm (mkfile [x07] 1)).1).
  assert (H : write_variable LittleEndian (fun _ x => x) 1 0 2 (pystr_of "norm.weight")
                norm (mkfile [x07] 1) = (f0, Ok tt)) by (vm_compute; reflexivity).
  exists f0. split; [exact H|].
  exact (later_shard_keeps_rank1_record LittleEndian (fun _ x => x) 1 1 2
           (pystr_of "norm.weight") norm
           (mktensor float32 [2] [f32_item 3; f32_item 4])
           (mkarray float32 [2] [f32_item 9; f32_item 10])
           (mkarray float32 [2] [f32_item 3; f32_item 4])
           (mkfile [x07] 1) f0
           eq_refl eq_refl eq_refl eq_refl eq_refl ltac:(discriminate) H).
Defined.

Lemma tensor_writer_lookups_never_fail_witness :
  write_variable LittleEndian (fun _ x => x) 1 0 1 (pystr_of "norm.weight")
    half_vector empty_file = (empty_file, Raise TypeError) /\
  TypeError <> KeyError /\ TypeError <> IndexError /\ TypeError <> NameError /\
  TypeError <> ZeroDivisionError.
Proof.
  assert (H : write_variable LittleEndian (fun _ x => x) 1 0 1 (pystr_of "norm.weight")
                half_vector empty_file = (empty_file, Raise TypeError))
    by (vm_compute; reflexivity).
  split; [exact H|].
  exact (tensor_writer_lookups_never_fail LittleEndian (fun _ x => x) 1 0 1
           (pystr_of "norm.weight") half_vector empty_file empty_file
           TypeError H).
Defined.

Lemma passes_keep_header_and_vocabulary_witness :
  exists f2 out,
    main LittleEndian unit pack_unit (fun _ x => x) 0 false params_13B
      small_tokenizer row_shards = (Some out, Ok tt) /\
    main LittleEndian unit pack_unit (fun _ x => x) 0 true params_13B
      small_tokenizer row_shards = (Some (contents f2), Ok tt) /\
    take (length (contents f2)) out = contents f2.
Proof.
  assert (Hs : forall part_id m name datao,
             row_shards part_id = Ok m -> (name, datao) ∈ m ->
             Forall (fun d => 0 <= d) (t_shape datao)).
  { intros part_id m name datao Hm Hin. unfold row_shards in Hm.
    destruct (part_id =? 0); [|destruct (part_id =? 1); [|discriminate Hm]];
      injection Hm as <-;
      (apply elem_of_cons in Hin as [Hin|Hin];
       [|apply elem_of_cons in Hin as [Hin|Hin]; [|by apply elem_of_nil in Hin]]);
      injection Hin as -> ->; cbn [t_shape quad norm];
      repeat (apply List.Forall_cons; [lia|]); apply List.Forall_nil. }
  set (hp := (load_hparams_and_tokenizer unit params_13B small_tokenizer).1).
  set (f1 := (write_header LittleEndian hp 0 empty_file).1).
  set (f2 := (write_tokens LittleEndian unit pack_unit small_tokenizer f1).1).
  set (out := default [] (main LittleEndian unit pack_unit (fun _ x => x) 0 false
                            params_13B small_tokenizer row_shards).1).
  assert (H1 : write_header LittleEndian hp 0 empty_file = (f1, Ok tt))
    by (vm_compute; reflexivity).
  assert (H2 : write_tokens LittleEndian unit pack_unit small_tokenizer f1 = (f2, Ok tt))
    by (vm_compute; reflexivity).
  assert (H3 : main LittleEndian unit pack_unit (fun _ x => x) 0 false params_13B
                 small_tokenizer row_shards = (Some out, Ok tt))
    by (vm_compute; reflexivity).
  destruct (passes_keep_header_and_vocabulary LittleEndian unit pack_unit (fun _ x => x)
              0 params_13B small_tokenizer row_shards f1 f2 out (Ok tt) Hs H1 H2 H3)
    as [Hk Hv].
  exists f2, out. split; [exact H3|]. split; [exact Hv|exact Hk].
Defined.

Lemma missing_first_shard_witness :
  exists f2,
    main LittleEndian unit pack_unit (fun _ x => x) 1 true params_13B
      small_tokenizer no_shards = (Some (contents f2), Ok tt) /\
    main LittleEndian unit pack_unit (fun _ x => x) 1 false params_13B
      small_tokenizer no_shards = (Some (contents f2), Raise FileNotFoundError).
Proof.
  set (hp := (load_hparams_and_tokenizer unit params_13B small_tokenizer).1).
  set (f1 := (write_header LittleEndian hp 1 empty_file).1).
  set (f2 := (write_tokens LittleEndian unit pack_unit small_tokenizer f1).1).
  assert (H1 : write_header LittleEndian hp 1 empty_file = (f1, Ok tt))
    by (vm_compute; reflexivity).
  assert (H2 : write_tokens LittleEndian unit pack_unit small_tokenizer f1 = (f2, Ok tt))
    by (vm_compute; reflexivity).
  exists f2. split; [vm_compute; reflexivity|].
  exact (missing_first_shard LittleEndian unit pack_unit (fun _ x => x) 1 5120 2
           params_13B small_tokenizer no_shards f1 f2 FileNotFoundError
           (or_intror (or_introl eq_refl)) eq_refl eq_refl H1 H2 eq_refl).
Defined.

Lemma row_parts_follow_each_other_witness :
  place_data (mkarray float32 [2; 2] (map f32_item [5; 6; 7; 8])) [2; 2] 2 1 2 (Some 0)
    1 4 3 (write (concat (map f32_item [1; 2; 3; 4])) (mkfile [x07; x07; x07] 3))
  = (write (concat (map f32_item [1; 2; 3; 4; 5; 6; 7; 8])) (mkfile [x07; x07; x07] 3),
     Ok tt).
Proof.
  destruct (row_parts_follow_each_other
              (mkarray float32 [2; 2] (map f32_item [5; 6; 7; 8])) 2 2 1 2 1 4 3
              (concat (map f32_item [1; 2; 3; 4])) [x07; x07; x07]
              (write (concat (map f32_item [1; 2; 3; 4])) (mkfile [x07; x07; x07] 3))
              ltac:(discriminate) ltac:(discriminate) eq_refl eq_refl)
    as (f' & E & ->).
  exact E.
Defined.
